(** * Emissions factors: an embedding of [model/emissionsfactors.py]

    The module converts configuration text into enumeration members, gives
    the CH4/N2O multipliers of a CO2-equivalence standard, and assembles the
    year-by-region grid emission tables.  Python values are dynamically
    typed, so attribute and argument values are modelled by the type
    [value]; exceptions by the error monad [outcome]; the pandas frames by
    an ordered list of named columns over an index of years.  A Python
    text is modelled by the bytes of its UTF-8 encoding. *)

From Stdlib Require Import ZArith String Ascii List Lia.
From Stdlib Require Import DecimalString.
From Stdlib Require Import Floats.PrimFloat.
From stdpp Require Import base option list strings.

Set Warnings "-inexact-float".
Local Open Scope Z_scope.
Local Open Scope string_scope.

(** ** Python values, exceptions *)

(** [enum.Enum('CO2EQ_SOURCE', 'AR5_WITH_FEEDBACK AR4 SAR')] and the two
    other enumerations of the module. *)
Inductive CO2EQ_SOURCE := AR5_WITH_FEEDBACK | AR4 | SAR.
Inductive GRID_SOURCE := META | IPCC.
Inductive GRID_RANGE := MEAN | HIGH | LOW.

(** The values that reach the functions of the module: [None], booleans,
    integers, text, and members of the three enumerations. *)
Inductive value :=
| VNone
| VBool (b : bool)
| VInt (z : Z)
| VStr (s : string)
| VCO2EQ_SOURCE (c : CO2EQ_SOURCE)
| VGRID_SOURCE (g : GRID_SOURCE)
| VGRID_RANGE (r : GRID_RANGE).

Inductive exn :=
| ValueError (msg : string)
| KeyError (msg : string).

Inductive outcome (A : Type) :=
| Ok (a : A)
| Raise (e : exn).
Arguments Ok {A} a.
Arguments Raise {A} e.

#[global] Instance outcome_ret : MRet outcome := fun _ a => Ok a.
#[global] Instance outcome_bind : MBind outcome := fun _ _ f m =>
  match m with
  | Ok a => f a
  | Raise e => Raise e
  end.

Module Py.

Definition CO2EQ_SOURCE_eqb (a b : CO2EQ_SOURCE) : bool :=
  match a, b with
  | AR5_WITH_FEEDBACK, AR5_WITH_FEEDBACK | AR4, AR4 | SAR, SAR => true
  | _, _ => false
  end.

Definition GRID_SOURCE_eqb (a b : GRID_SOURCE) : bool :=
  match a, b with
  | META, META | IPCC, IPCC => true
  | _, _ => false
  end.

Definition GRID_RANGE_eqb (a b : GRID_RANGE) : bool :=
  match a, b with
  | MEAN, MEAN | HIGH, HIGH | LOW, LOW => true
  | _, _ => false
  end.

(** Python's [==].  Members of a plain [Enum] are equal to themselves
    only; [bool] is a subclass of [int], so [True == 1]. *)
Definition eq (a b : value) : bool :=
  match a, b with
  | VNone, VNone => true
  | VBool x, VBool y => Bool.eqb x y
  | VBool x, VInt z | VInt z, VBool x => Z.eqb (Z.b2z x) z
  | VInt x, VInt y => Z.eqb x y
  | VStr x, VStr y => String.eqb x y
  | VCO2EQ_SOURCE x, VCO2EQ_SOURCE y => CO2EQ_SOURCE_eqb x y
  | VGRID_SOURCE x, VGRID_SOURCE y => GRID_SOURCE_eqb x y
  | VGRID_RANGE x, VGRID_RANGE y => GRID_RANGE_eqb x y
  | _, _ => false
  end.

(** Truth value of an object, as tested by [x if c else y]. *)
Definition truthy (a : value) : bool :=
  match a with
  | VNone => false
  | VBool b => b
  | VInt z => negb (Z.eqb z 0)
  | VStr s => negb (String.eqb s "")
  | VCO2EQ_SOURCE _ | VGRID_SOURCE _ | VGRID_RANGE _ => true
  end.

(** [str(x)], which is also what an f-string inserts for these values. *)
Definition str (a : value) : string :=
  match a with
  | VNone => "None"
  | VBool true => "True"
  | VBool false => "False"
  | VInt z => NilZero.string_of_int (Z.to_int z)
  | VStr s => s
  | VCO2EQ_SOURCE AR5_WITH_FEEDBACK => "CO2EQ_SOURCE.AR5_WITH_FEEDBACK"
  | VCO2EQ_SOURCE AR4 => "CO2EQ_SOURCE.AR4"
  | VCO2EQ_SOURCE SAR => "CO2EQ_SOURCE.SAR"
  | VGRID_SOURCE META => "GRID_SOURCE.META"
  | VGRID_SOURCE IPCC => "GRID_SOURCE.IPCC"
  | VGRID_RANGE MEAN => "GRID_RANGE.MEAN"
  | VGRID_RANGE HIGH => "GRID_RANGE.HIGH"
  | VGRID_RANGE LOW => "GRID_RANGE.LOW"
  end.

Definition is_upper (c : ascii) : bool :=
  let n := N_of_ascii c in (65 <=? n)%N && (n <=? 90)%N.

Definition is_lower (c : ascii) : bool :=
  let n := N_of_ascii c in (97 <=? n)%N && (n <=? 122)%N.

Definition lower_char (c : ascii) : ascii :=
  if is_upper c then ascii_of_N (N_of_ascii c + 32) else c.

(** [s.lower()] on the UTF-8 encoding of [s].  The letters [A]..[Z] are
    mapped to [a]..[z].  Outside ASCII two characters have a lower-case form
    with an ASCII character in it, and they are lowered as Python does:
    KELVIN SIGN U+212A (bytes 226 132 170) gives "k", and LATIN CAPITAL
    LETTER I WITH DOT ABOVE U+0130 (bytes 196 176) gives "i" followed by
    U+0307 (bytes 204 135).  Every other character outside ASCII is a
    character outside ASCII after lowering as well; its bytes are kept, so
    that the lowered text has the same ASCII characters at the same places
    as in Python and is equal to an ASCII text exactly when Python's is. *)
Fixpoint lower (s : string) : string :=
  match s with
  | EmptyString => EmptyString
  | String c s' =>
      if Ascii.eqb c "226" then
        match s' with
        | String c1 (String c2 rest) =>
            if Ascii.eqb c1 "132" && Ascii.eqb c2 "170"
            then String "k" (lower rest)
            else String c (lower s')
        | _ => String c (lower s')
        end
      else if Ascii.eqb c "196" then
        match s' with
        | String c1 rest =>
            if Ascii.eqb c1 "176"
            then String "i" (String "204" (String "135" (lower rest)))
            else String c (lower s')
        | EmptyString => String c (lower s')
        end
      else String (lower_char c) (lower s')
  end.

(** [range(a, b)] as a list. *)
Definition range (a b : Z) : list Z := seqZ a (b - a).

(** A call that leaves out a keyword argument takes its default. *)
Definition arg {A} (dflt : A) (given : option A) : A :=
  match given with
  | Some a => a
  | None => dflt
  end.

End Py.

(** ** [class CO2Equiv] *)

Record CO2Equiv := {
  conversion_source : value;
  CH4multiplier : Z;
  N2Omultiplier : Z
}.

(** [CO2Equiv.__init__(self, conversion_source=None)]: the attributes of
    the constructed object, or the exception raised. *)
Definition CO2Equiv__init__ (conversion_source : option value) : outcome CO2Equiv :=
  let conversion_source := Py.arg VNone conversion_source in
  let self_conversion_source :=
    if Py.truthy conversion_source then conversion_source
    else VCO2EQ_SOURCE AR5_WITH_FEEDBACK in
  if Py.eq self_conversion_source (VCO2EQ_SOURCE AR5_WITH_FEEDBACK) then
    Ok {| conversion_source := self_conversion_source;
          CH4multiplier := 34; N2Omultiplier := 298 |}
  else if Py.eq self_conversion_source (VCO2EQ_SOURCE AR4) then
    Ok {| conversion_source := self_conversion_source;
          CH4multiplier := 25; N2Omultiplier := 298 |}
  else if Py.eq self_conversion_source (VCO2EQ_SOURCE SAR) then
    Ok {| conversion_source := self_conversion_source;
          CH4multiplier := 21; N2Omultiplier := 310 |}
  else
    Raise (ValueError ("invalid conversion_source=" +:+ Py.str self_conversion_source)).

(** ** Text to enumeration members *)

Definition string_to_conversion_source (text : value) : outcome CO2EQ_SOURCE :=
  if String.eqb (Py.lower (Py.str text)) "ar5 with feedback" then
    Ok AR5_WITH_FEEDBACK
  else if String.eqb (Py.lower (Py.str text)) "ar5_with_feedback" then
    Ok AR5_WITH_FEEDBACK
  else if String.eqb (Py.lower (Py.str text)) "ar4" then
    Ok AR4
  else if String.eqb (Py.lower (Py.str text)) "sar" then
    Ok SAR
  else
    Raise (ValueError ("invalid conversion name=" +:+ Py.str text)).

Definition string_to_emissions_grid_source (text : value) : outcome GRID_SOURCE :=
  if String.eqb (Py.lower (Py.str text)) "meta-analysis" then
    Ok META
  else if String.eqb (Py.lower (Py.str text)) "meta_analysis" then
    Ok META
  else if String.eqb (Py.lower (Py.str text)) "meta analysis" then
    Ok META
  else if String.eqb (Py.lower (Py.str text)) "ipcc only" then
    Ok IPCC
  else if String.eqb (Py.lower (Py.str text)) "ipcc_only" then
    Ok IPCC
  else
    Raise (ValueError ("invalid grid source name=" +:+ Py.str text)).

Definition string_to_emissions_grid_range (text : value) : outcome GRID_RANGE :=
  if String.eqb (Py.lower (Py.str text)) "mean" then
    Ok MEAN
  else if String.eqb (Py.lower (Py.str text)) "median" then
    Ok MEAN
  else if String.eqb (Py.lower (Py.str text)) "high" then
    Ok HIGH
  else if String.eqb (Py.lower (Py.str text)) "low" then
    Ok LOW
  else
    Raise (ValueError ("invalid grid range name=" +:+ Py.str text)).

(** ** The pandas frames used by the module *)

Module pd.

(** A cell holds an integer or a float64. *)
Inductive scalar :=
| I (z : Z)
| F (x : float).

(** A frame: the row labels, the name of the index, and the columns in
    their order, each with one cell per row. *)
Record DataFrame := {
  index : list Z;
  index_name : option string;
  series : list (string * list scalar)
}.

Definition columns (df : DataFrame) : list string := fst <$> series df.


(** [pd.DataFrame(index=index, columns=columns)]: every cell is NaN. *)
Definition DataFrame_empty (index : list Z) (columns : list string) : DataFrame :=
  {| index := index;
     index_name := None;
     series := (fun c => (c, replicate (length index) (F nan))) <$> columns |}.

(** [pd.DataFrame(data, columns=columns)] for a list of rows: the rows are
    labelled 0, 1, ... and column [j] collects the [j]-th entry of each
    row (NaN where a row is too short). *)
Definition DataFrame_of_rows (data : list (list scalar)) (columns : list string)
  : DataFrame :=
  {| index := Py.range 0 (Z.of_nat (length data));
     index_name := None;
     series := imap (fun j c => (c, (fun row => default (F nan) (row !! j)) <$> data))
                    columns |}.

(** [df.index.name = name] *)
Definition set_index_name (df : DataFrame) (name : string) : DataFrame :=
  {| index := index df; index_name := Some name; series := series df |}.

Fixpoint lookup_series (name : string) (cols : list (string * list scalar))
  : option (list scalar) :=
  match cols with
  | [] => None
  | (n, vs) :: rest => if String.eqb n name then Some vs else lookup_series name rest
  end.

(** Replace the named column; a name that is not a column yet is added
    after the others. *)
Fixpoint assign (name : string) (vs : list scalar) (cols : list (string * list scalar))
  : list (string * list scalar) :=
  match cols with
  | [] => [(name, vs)]
  | (n, old) :: rest =>
      if String.eqb n name then (n, vs) :: rest else (n, old) :: assign name vs rest
  end.

(** [df.loc[:, name].values] *)
Definition loc_values (df : DataFrame) (name : string) : outcome (list scalar) :=
  match lookup_series name (series df) with
  | Some vs => Ok vs
  | None => Raise (KeyError name)
  end.

(** [df.loc[:, name] = values] for an array of values.  pandas rejects an
    array that is not as long as the index with a [ValueError]; its message
    is given in short. *)
Definition loc_set_values (df : DataFrame) (name : string) (values : list scalar)
  : outcome DataFrame :=
  if Nat.eqb (length values) (length (index df)) then
    Ok {| index := index df; index_name := index_name df;
          series := assign name values (series df) |}
  else
    Raise (ValueError "Length of values does not match length of index").

(** [df.loc[:, name] = x] for one float [x], written to every row. *)
Definition loc_set_scalar (df : DataFrame) (name : string) (x : float) : DataFrame :=
  {| index := index df; index_name := index_name df;
     series := assign name (replicate (length (index df)) (F x)) (series df) |}.

Fixpoint position (label : Z) (labels : list Z) : option nat :=
  match labels with
  | [] => None
  | l :: rest => if Z.eqb l label then Some O else S <$> position label rest
  end.

(** [df.loc[label, name]]: the cell in the row labelled [label]. *)
Definition loc (df : DataFrame) (label : Z) (name : string) : option scalar :=
  match position label (index df), lookup_series name (series df) with
  | Some i, Some vs => vs !! i
  | _, _ => None
  end.

End pd.

Import pd(I, F).

(** [_world_meta_1]: 'Emissions Factors'!A290:D336. *)
Definition _world_meta_1 : pd.DataFrame :=
  pd.DataFrame_of_rows [
    [I 2015; F 0.580491641; F 0.726805942; F 0.444419682];
    [I 2016; F 0.580381730; F 0.726494196; F 0.444511607];
    [I 2017; F 0.580191808; F 0.726117383; F 0.444508574];
    [I 2018; F 0.579932742; F 0.725684840; F 0.444422987];
    [I 2019; F 0.579613986; F 0.725204693; F 0.444265621];
    [I 2020; F 0.581083120; F 0.726403172; F 0.446005409];
    [I 2021; F 0.578829123; F 0.724128766; F 0.443771822];
    [I 2022; F 0.578376324; F 0.723544325; F 0.443450666];
    [I 2023; F 0.577890875; F 0.722935374; F 0.443088717];
    [I 2024; F 0.577377675; F 0.722306095; F 0.442691597];
    [I 2025; F 0.576724036; F 0.721565698; F 0.442124716];
    [I 2026; F 0.576284921; F 0.721000946; F 0.441811237];
    [I 2027; F 0.575712661; F 0.720331282; F 0.441336382];
    [I 2028; F 0.575127412; F 0.719653850; F 0.440843316];
    [I 2029; F 0.574531990; F 0.718971040; F 0.440335281];
    [I 2030; F 0.573264022; F 0.717635960; F 0.439134425];
    [I 2031; F 0.573320545; F 0.717597727; F 0.439285704];
    [I 2032; F 0.572708901; F 0.716910953; F 0.438749190];
    [I 2033; F 0.572095895; F 0.716226301; F 0.438207831];
    [I 2034; F 0.571483259; F 0.715545242; F 0.437663617];
    [I 2035; F 0.570821497; F 0.714820866; F 0.437064470];
    [I 2036; F 0.570265395; F 0.714199285; F 0.436573847];
    [I 2037; F 0.569663069; F 0.713536875; F 0.436031604];
    [I 2038; F 0.569066909; F 0.712883028; F 0.435493132];
    [I 2039; F 0.568478136; F 0.712238796; F 0.434959817];
    [I 2040; F 0.567083308; F 0.710887186; F 0.433521771];
    [I 2041; F 0.567327331; F 0.710983152; F 0.433913852];
    [I 2042; F 0.566767481; F 0.710373641; F 0.433403663];
    [I 2043; F 0.566219394; F 0.709777559; F 0.432903570];
    [I 2044; F 0.565684079; F 0.709195799; F 0.432414701];
    [I 2045; F 0.565044176; F 0.708501694; F 0.431829000];
    [I 2046; F 0.564655700; F 0.708078732; F 0.431475009];
    [I 2047; F 0.564164556; F 0.707545143; F 0.431026311];
    [I 2048; F 0.563690051; F 0.707029331; F 0.430593113];
    [I 2049; F 0.563233144; F 0.706532169; F 0.430176460];
    [I 2050; F 0.563942003; F 0.707108074; F 0.431018275];
    [I 2051; F 0.562376012; F 0.705597348; F 0.429397017];
    [I 2052; F 0.561977781; F 0.705161518; F 0.429036385];
    [I 2053; F 0.561601149; F 0.704748013; F 0.428696627];
    [I 2054; F 0.561247194; F 0.704357833; F 0.428378896];
    [I 2055; F 0.560917031; F 0.703992021; F 0.428084382];
    [I 2056; F 0.560611819; F 0.703651663; F 0.427814318];
    [I 2057; F 0.560332776; F 0.703337903; F 0.427569991];
    [I 2058; F 0.560081211; F 0.703051332; F 0.427353431];
    [I 2059; F 0.559858464; F 0.702793863; F 0.427165406];
    [I 2060; F 0.559324305; F 0.702254712; F 0.426636240]
  ] ["Year"; "medium"; "high"; "low"].

(** [_world_ipcc]: 'Emissions Factors'!F290:I336. *)
Definition _world_ipcc : pd.DataFrame :=
  pd.DataFrame_of_rows [
    [I 2015; F 0.484233479886851; F 0.954301230978324; F 0.415714611547194];
    [I 2016; F 0.483874688367180; F 0.953705808726241; F 0.415699168023559];
    [I 2017; F 0.483468578344429; F 0.953091499730308; F 0.415616211090683];
    [I 2018; F 0.483022233781448; F 0.952462141044895; F 0.415474739683663];
    [I 2019; F 0.482541827613129; F 0.951821094094534; F 0.415282575858891];
    [I 2020; F 0.483415642278809; F 0.952177536197487; F 0.416520905499686];
    [I 2021; F 0.481499412617218; F 0.950514955984204; F 0.414772457309720];
    [I 2022; F 0.480945957200632; F 0.949854330000227; F 0.414465552432322];
    [I 2023; F 0.480375890793439; F 0.949191227373746; F 0.414130387202149];
    [I 2024; F 0.479792370097929; F 0.948527306071946; F 0.413771028606294];
    [I 2025; F 0.479129875365096; F 0.947838144272479; F 0.413292094853295];
    [I 2026; F 0.478595824341775; F 0.947202675323842; F 0.412993759718887];
    [I 2027; F 0.477987474489965; F 0.946544387335615; F 0.412581910201081];
    [I 2028; F 0.477375134675864; F 0.945890189693049; F 0.412158128728530];
    [I 2029; F 0.476760604919920; F 0.945241007845619; F 0.411724756299051];
    [I 2030; F 0.475609144710954; F 0.944163265130839; F 0.410760518917611];
    [I 2031; F 0.475531330098496; F 0.943960978462593; F 0.410837481063205];
    [I 2032; F 0.474919397316536; F 0.943331597296287; F 0.410387213255880];
    [I 2033; F 0.474310925799146; F 0.942710164328208; F 0.409934674540315];
    [I 2034; F 0.473707024060823; F 0.942097253091754; F 0.409481302620380];
    [I 2035; F 0.473069619537973; F 0.941464119365002; F 0.408987650013088];
    [I 2036; F 0.472516992530166; F 0.940899134962305; F 0.408577287386756];
    [I 2037; F 0.471932749289687; F 0.940314944696740; F 0.408129046349254];
    [I 2038; F 0.471356840757086; F 0.939741296080086; F 0.407684776056632];
    [I 2039; F 0.470790067978465; F 0.939178632698648; F 0.407245483451931];
    [I 2040; F 0.469678044528875; F 0.938292812842989; F 0.406144087639722];
    [I 2041; F 0.469686967218630; F 0.938087976021352; F 0.406385614113651];
    [I 2042; F 0.469152097173049; F 0.937560823287853; F 0.405966833587310];
    [I 2043; F 0.468629288818192; F 0.937046343521181; F 0.405556634681864];
    [I 2044; F 0.468119232533872; F 0.936544954506346; F 0.405155846275011];
    [I 2045; F 0.467511263814817; F 0.935948980928557; F 0.404676293987320];
    [I 2046; F 0.467140086966888; F 0.935583127327976; F 0.404385713672719];
    [I 2047; F 0.466672338575004; F 0.935123538476659; F 0.404017937790258];
    [I 2048; F 0.466220041675584; F 0.934678754794794; F 0.403662724592571];
    [I 2049; F 0.465783884392082; F 0.934249237215735; F 0.403320851377671];
    [I 2050; F 0.466202378014719; F 0.934415166260444; F 0.403919169849744];
    [I 2051; F 0.464962806154690; F 0.933437918543026; F 0.402680273560695];
    [I 2052; F 0.464579339264012; F 0.933057121808404; F 0.402383178115162];
    [I 2053; F 0.464214935271267; F 0.932693614309824; F 0.402102653404484];
    [I 2054; F 0.463870395799940; F 0.932347969864178; F 0.401839564471306];
    [I 2055; F 0.463546558438388; F 0.932020795519145; F 0.401594806949223];
    [I 2056; F 0.463244298699963; F 0.931712733709783; F 0.401369308350724];
    [I 2057; F 0.462964541559962; F 0.931424469977991; F 0.401164041108521];
    [I 2058; F 0.462707434123228; F 0.931155096821641; F 0.400980275898344];
    [I 2059; F 0.462474856382921; F 0.930907038457189; F 0.400818857404330];
    [I 2060; F 0.462020537057214; F 0.930512636676233; F 0.400404559244924]
  ] ["Year"; "medium"; "high"; "low"].

(** [_world_meta_2]: 'Emissions Factors'!A290:D336 in the 2020 version of the Excel files. *)
Definition _world_meta_2 : pd.DataFrame :=
  pd.DataFrame_of_rows [
    [I 2015; F 0.619753649484954; F 0.834200994227942; F 0.446911398737087];
    [I 2016; F 0.613223327855322; F 0.827419241197181; F 0.441324423346894];
    [I 2017; F 0.606715005275064; F 0.817903147977287; F 0.436594799095373];
    [I 2018; F 0.602650482222055; F 0.811957311805342; F 0.433711588716669];
    [I 2019; F 0.599546311600711; F 0.808809196292089; F 0.431043861809484];
    [I 2020; F 0.595844101320605; F 0.805066315637190; F 0.427859783304937];
    [I 2021; F 0.592313613174105; F 0.801495614192573; F 0.424823161474647];
    [I 2022; F 0.588839905934230; F 0.797975220897886; F 0.421832598087871];
    [I 2023; F 0.585449295836798; F 0.794534135403531; F 0.418911809360421];
    [I 2024; F 0.582134106340607; F 0.791164960038795; F 0.416054306144423];
    [I 2025; F 0.579212349557159; F 0.788184425039760; F 0.413534464382670];
    [I 2026; F 0.575701698847632; F 0.784615063765847; F 0.410505236766206];
    [I 2027; F 0.572571412159762; F 0.781421736177582; F 0.407802618493011];
    [I 2028; F 0.569490331287843; F 0.778275031115247; F 0.405141116198009];
    [I 2029; F 0.566452830841887; F 0.775169515850856; F 0.402515970114720];
    [I 2030; F 0.563582610910188; F 0.772224408553539; F 0.400032800926231];
    [I 2031; F 0.560487575191628; F 0.769061765323778; F 0.397356976482730];
    [I 2032; F 0.557549996015452; F 0.766050030587511; F 0.394814811934275];
    [I 2033; F 0.554636302401122; F 0.763060441667938; F 0.392292329996334];
    [I 2034; F 0.551742154484868; F 0.760088796218024; F 0.389785854191242];
    [I 2035; F 0.548784376564443; F 0.757051944289887; F 0.387224226526241];
    [I 2036; F 0.545979252104998; F 0.754165935635464; F 0.384793649089973];
    [I 2037; F 0.543106698312767; F 0.751211316808699; F 0.382304463418555];
    [I 2038; F 0.540236787794954; F 0.748258161570859; F 0.379817005842378];
    [I 2039; F 0.537352597396159; F 0.745289123477943; F 0.377317616531354];
    [I 2040; F 0.534257808148527; F 0.742113543256056; F 0.374637411133684];
    [I 2041; F 0.531581023073820; F 0.739345510659962; F 0.372313849192314];
    [I 2042; F 0.528685258247064; F 0.736362655581270; F 0.369802465048003];
    [I 2043; F 0.525775521926616; F 0.733365101778856; F 0.367278694303595];
    [I 2044; F 0.522848765756972; F 0.730349877395092; F 0.364739945323485];
    [I 2045; F 0.519796747547837; F 0.727206616166885; F 0.362092302098936];
    [I 2046; F 0.516932341500910; F 0.724254851488976; F 0.359607432066743];
    [I 2047; F 0.513936894157109; F 0.721169405528371; F 0.357008750494339];
    [I 2048; F 0.510912853777991; F 0.718054985950131; F 0.354385243670808];
    [I 2049; F 0.508316537396635; F 0.715381773638989; F 0.352134907312678];
    [I 2050; F 0.506594921787481; F 0.713622488394168; F 0.350653654650227];
    [I 2051; F 0.504688929275709; F 0.711690195955989; F 0.349010631116045];
    [I 2052; F 0.502854324722711; F 0.709827677277282; F 0.347428887775673];
    [I 2053; F 0.500981466874364; F 0.707928699401097; F 0.345814547929372];
    [I 2054; F 0.499068430228993; F 0.705991414176679; F 0.344165978406253];
    [I 2055; F 0.497072403296562; F 0.703969699319331; F 0.342445358912229];
    [I 2056; F 0.495114656946048; F 0.701995050774066; F 0.340760075761759];
    [I 2057; F 0.493070596435275; F 0.699932787017676; F 0.338999924825479];
    [I 2058; F 0.490979702541600; F 0.697825838098367; F 0.337199902765339];
    [I 2059; F 0.488840556318235; F 0.695672846558836; F 0.335358807437345];
    [I 2060; F 0.486810301162345; F 0.693612676011530; F 0.333607332510495]
  ] ["Year"; "medium"; "high"; "low"].

(** [_world_meta_3]: variant of 'Emissions Factors'!A290:D336 in solutions like Bike Infrastructure, Drawdown 2020 edition. *)
Definition _world_meta_3 : pd.DataFrame :=
  pd.DataFrame_of_rows [
    [I 2015; F 0.617381627523255; F 0.830817877069664; F 0.446511800066534];
    [I 2016; F 0.613053711917674; F 0.824698901512021; F 0.443404400078671];
    [I 2017; F 0.605559021113794; F 0.815532512015463; F 0.437490678056033];
    [I 2018; F 0.599823764037522; F 0.807926586189615; F 0.433230012701179];
    [I 2019; F 0.596692109138654; F 0.804739279793431; F 0.430557603413934];
    [I 2020; F 0.592956465174414; F 0.800948724769081; F 0.427367828954101];
    [I 2021; F 0.589394210498330; F 0.797332726214472; F 0.424325795194590];
    [I 2022; F 0.585889940804312; F 0.793768752747037; F 0.421330025011830];
    [I 2023; F 0.582469966488571; F 0.790285795690257; F 0.418404233626765];
    [I 2024; F 0.579126508336472; F 0.786876310967440; F 0.415541914399482];
    [I 2025; F 0.576180723793771; F 0.783861513867133; F 0.413017979130062];
    [I 2026; F 0.572640473126760; F 0.780249944881284; F 0.409983708694097];
    [I 2027; F 0.569484653817574; F 0.777020209351351; F 0.407276740536253];
    [I 2028; F 0.566378787697806; F 0.773838162055771; F 0.404611015683456];
    [I 2029; F 0.563317175272247; F 0.770698264597087; F 0.401981761744236];
    [I 2030; F 0.560425096459919; F 0.767721987885512; F 0.399494868550752];
    [I 2031; F 0.557305440093151; F 0.764524237131432; F 0.396814849591601];
    [I 2032; F 0.554345365121137; F 0.761480424779140; F 0.394268852529604];
    [I 2033; F 0.551409591841439; F 0.758459351619903; F 0.391742608972507];
    [I 2034; F 0.548493724307989; F 0.755456735336789; F 0.389232432888142];
    [I 2035; F 0.545513743488868; F 0.752388223445871; F 0.386667022609245];
    [I 2036; F 0.542688055628436; F 0.749472892651180; F 0.384232941873367];
    [I 2037; F 0.539794403434954; F 0.746488188806800; F 0.381740161756609];
    [I 2038; F 0.536903541206374; F 0.743505157722919; F 0.379249134726127];
    [I 2039; F 0.533998346916998; F 0.740506169378769; F 0.376746167071146];
    [I 2040; F 0.530880184208068; F 0.737297260044097; F 0.374061979635782];
    [I 2041; F 0.528185054593160; F 0.734503069266229; F 0.371735292412725];
    [I 2042; F 0.525268472346747; F 0.731490529832329; F 0.369220361692718];
    [I 2043; F 0.522337858549740; F 0.728463206037271; F 0.366693034140975];
    [I 2044; F 0.519390127508675; F 0.725418072781803; F 0.364150711760779];
    [I 2045; F 0.516316182594658; F 0.722243545426141; F 0.361499332976304];
    [I 2046; F 0.513431317163278; F 0.719262606929121; F 0.359010977365359];
    [I 2047; F 0.510414388803142; F 0.716146530365413; F 0.356408636163102];
    [I 2048; F 0.507368630222783; F 0.713001141973038; F 0.353781429301529];
    [I 2049; F 0.504753471538005; F 0.710301061700499; F 0.351527882859898];
    [I 2050; F 0.503017662563427; F 0.708521537592850; F 0.350044212133840];
    [I 2051; F 0.501095097574196; F 0.706565613824964; F 0.348398365216802];
    [I 2052; F 0.499244741360773; F 0.704680634250964; F 0.346813938332699];
    [I 2053; F 0.497355610112209; F 0.702758451510754; F 0.345196826056066];
    [I 2054; F 0.495425752440293; F 0.700797180540976; F 0.343545390805835];
    [I 2055; F 0.493412239186826; F 0.698750531269397; F 0.341821792241291];
    [I 2056; F 0.491436597471548; F 0.696750365038799; F 0.340133460333253];
    [I 2057; F 0.489373931181422; F 0.694661570589733; F 0.338370139609077];
    [I 2058; F 0.487263793557604; F 0.692527181299305; F 0.336566839076065];
    [I 2059; F 0.485104746166210; F 0.690345811922819; F 0.334722353270288];
    [I 2060; F 0.483057064536976; F 0.688260792300398; F 0.332967909468916]
  ] ["Year"; "medium"; "high"; "low"].

(** [_world_meta_4]: used in Drawdown 2020 Alternative Cement. *)
Definition _world_meta_4 : pd.DataFrame :=
  pd.DataFrame_of_rows [
    [I 2015; F 0.619731238862595; F 0.833329897638502; F 0.447394567903417];
    [I 2016; F 0.613191401904823; F 0.826475738292122; F 0.441840091403282];
    [I 2017; F 0.606673460423821; F 0.816888151363190; F 0.437142332630907];
    [I 2018; F 0.602621620826105; F 0.810921431890408; F 0.434283943572488];
    [I 2019; F 0.599517169584422; F 0.807763244481335; F 0.431621781691129];
    [I 2020; F 0.595814617939265; F 0.804008111709454; F 0.428444472850274];
    [I 2021; F 0.592283805449719; F 0.800425769093762; F 0.425414283117659];
    [I 2022; F 0.588809786160664; F 0.796894175873816; F 0.422429908026953];
    [I 2023; F 0.585418876248296; F 0.793442329560030; F 0.419515064976376];
    [I 2024; F 0.582103398123095; F 0.790062794855959; F 0.416663285607405];
    [I 2025; F 0.579181396011097; F 0.787073454637732; F 0.414148308994488];
    [I 2026; F 0.575670443079687; F 0.783493246155346; F 0.411125074787444];
    [I 2027; F 0.572539895698304; F 0.780290561875727; F 0.408427626368065];
    [I 2028; F 0.569458561763715; F 0.777134774004723; F 0.405771142598445];
    [I 2029; F 0.566420815129301; F 0.774020422657726; F 0.403150878716958];
    [I 2030; F 0.563550372013766; F 0.771067304949067; F 0.400672135522024];
    [I 2031; F 0.560455084913133; F 0.767895639229866; F 0.398001296275715];
    [I 2032; F 0.557517276050081; F 0.764875660678135; F 0.395463686683625];
    [I 2033; F 0.554603356997654; F 0.761877980438385; F 0.392945675443809];
    [I 2034; F 0.551708987319473; F 0.758898375611644; F 0.390443597434166];
    [I 2035; F 0.548750982702714; F 0.755853387203211; F 0.387886465419616];
    [I 2036; F 0.545945648286556; F 0.752959842879268; F 0.385460051667747];
    [I 2037; F 0.543072879075145; F 0.749997492326640; F 0.382975138007765];
    [I 2038; F 0.540202754635895; F 0.747036659119172; F 0.380491922741082];
    [I 2039; F 0.537318349782893; F 0.744059923934800; F 0.377996786304940];
    [I 2040; F 0.534223321887233; F 0.740875778267926; F 0.375321313573634];
    [I 2041; F 0.531546349510856; F 0.738101023126640; F 0.373001466040980];
    [I 2042; F 0.528650372133802; F 0.735110539290677; F 0.370494297014854];
    [I 2043; F 0.525740422649863; F 0.732105334722523; F 0.367974753548975];
    [I 2044; F 0.522813452322305; F 0.729082423881671; F 0.365440251567938];
    [I 2045; F 0.519761210236833; F 0.725931127387228; F 0.362797048070022];
    [I 2046; F 0.516896595295224; F 0.722971865157726; F 0.360316320660926];
    [I 2047; F 0.513900928625662; F 0.719878547258031; F 0.357721988571989];
    [I 2048; F 0.510876666499075; F 0.716756168821856; F 0.355102879257204];
    [I 2049; F 0.508280157733779; F 0.714076051555076; F 0.352856358095056];
    [I 2050; F 0.506558397207335; F 0.712311565005700; F 0.351377979310044];
    [I 2051; F 0.504652235487031; F 0.710373199412923; F 0.349738311376714];
    [I 2052; F 0.502817470106218; F 0.708504908376451; F 0.348159757437882];
    [I 2053; F 0.500944446102982; F 0.706599966945595; F 0.346548712635171];
    [I 2054; F 0.499031237711340; F 0.704656517483214; F 0.344903549039207];
    [I 2055; F 0.497035032239839; F 0.702628394583901; F 0.343186470181391];
    [I 2056; F 0.495077103173832; F 0.700647188098395; F 0.341504810490442];
    [I 2057; F 0.493032852694081; F 0.698578106063043; F 0.339748426858670];
    [I 2058; F 0.490941762317814; F 0.696464105081149; F 0.337952301275530];
    [I 2059; F 0.488802412899276; F 0.694303820554168; F 0.336115235542782];
    [I 2060; F 0.486771979815374; F 0.692237263896700; F 0.334367289134159]
  ] ["Year"; "medium"; "high"; "low"].

(** ** [class ElectricityGenOnGrid] *)

(** The advanced controls object [ac] that is handed to the constructor:
    of its attributes the class reads these two.  The base class
    [DataHandler] gives the class nothing that the methods below use. *)
Record AdvancedControls := {
  emissions_grid_source : value;
  emissions_grid_range : value
}.

Record ElectricityGenOnGrid := {
  ac : AdvancedControls;
  grid_emissions_version : value
}.

(** [ElectricityGenOnGrid.__init__(self, ac, grid_emissions_version=1)] *)
Definition ElectricityGenOnGrid__init__
  (ac : AdvancedControls) (grid_emissions_version : option value)
  : ElectricityGenOnGrid :=
  {| ac := ac;
     grid_emissions_version := Py.arg (VInt 1) grid_emissions_version |}.

(** The list of columns that both table methods hand to [pd.DataFrame]. *)
Definition region_columns : list string :=
  ["World"; "OECD90"; "Eastern Europe"; "Asia (Sans Japan)";
   "Middle East and Africa"; "Latin America"; "China"; "India";
   "EU"; "USA"].

(** [functools.lru_cache()]: a call of the cached function gives what the
    function gives for these arguments. *)
Definition lru_cache {A B} (func : A -> B) : A -> B := func.

(** Modelled from the spec: the decorator [data_func] of
    [model/decorators.py], a file that is not among the sources.  The
    specification describes the two table operations by what the method
    bodies build, so the decorated function is taken to return what the
    function returns. *)
Definition data_func {A B} (func : A -> B) : A -> B := func.

(** [ElectricityGenOnGrid.conv_ref_grid_CO2eq_per_KWh(self)].
    'Emissions Factors'!A11:K57 *)
Definition conv_ref_grid_CO2eq_per_KWh
  : ElectricityGenOnGrid -> outcome pd.DataFrame :=
  lru_cache (data_func (fun self =>
  let source := emissions_grid_source (ac self) in
  let version := grid_emissions_version self in
  let range := emissions_grid_range (ac self) in
  let result := pd.DataFrame_empty (Py.range 2015 2061) region_columns in
  let result := pd.set_index_name result "Year" in
  grid ← (if Py.eq source (VGRID_SOURCE IPCC) then
            Ok _world_ipcc
          else if Py.eq source (VGRID_SOURCE META) && Py.eq version (VInt 1) then
            Ok _world_meta_1
          else if Py.eq source (VGRID_SOURCE META) && Py.eq version (VInt 2) then
            Ok _world_meta_2
          else if Py.eq source (VGRID_SOURCE META) && Py.eq version (VInt 3) then
            Ok _world_meta_3
          else if Py.eq source (VGRID_SOURCE META) && Py.eq version (VInt 4) then
            Ok _world_meta_4
          else
            Raise (ValueError ("Invalid self.ac.emissions_grid_source " +:+ Py.str source)));
  result ← (if Py.eq range (VGRID_RANGE HIGH) then
              values ← pd.loc_values grid "high";
              pd.loc_set_values result "World" values
            else if Py.eq range (VGRID_RANGE LOW) then
              values ← pd.loc_values grid "low";
              pd.loc_set_values result "World" values
            else if Py.eq range (VGRID_RANGE MEAN) then
              values ← pd.loc_values grid "medium";
              pd.loc_set_values result "World" values
            else
              Raise (ValueError ("Invalid ac.emissions_grid_range " +:+ Py.str range)));
  let result := pd.loc_set_scalar result "OECD90" 0.454068989 in
  let result := pd.loc_set_scalar result "Eastern Europe" 0.724747956 in
  let result := pd.loc_set_scalar result "Asia (Sans Japan)" 0.457658947 in
  let result := pd.loc_set_scalar result "Middle East and Africa" 0.282243907 in
  let result := pd.loc_set_scalar result "Latin America" 0.564394712 in
  let result := pd.loc_set_scalar result "China" 0.535962403 in
  let result := pd.loc_set_scalar result "India" 0.787832379 in
  let result := pd.loc_set_scalar result "EU" 0.360629290 in
  let result := pd.loc_set_scalar result "USA" 0.665071666 in
  Ok result)).

(** [ElectricityGenOnGrid.conv_ref_grid_CO2_per_KWh(self)].
    'Emissions Factors'!A66:K112 *)
Definition conv_ref_grid_CO2_per_KWh
  : ElectricityGenOnGrid -> outcome pd.DataFrame :=
  lru_cache (data_func (fun self =>
  let result := pd.DataFrame_empty (Py.range 2015 2061) region_columns in
  let result := pd.set_index_name result "Year" in
  let result := pd.loc_set_scalar result "World" 0.484512031078339 in
  let result := pd.loc_set_scalar result "OECD90" 0.392126590013504 in
  let result := pd.loc_set_scalar result "Eastern Europe" 0.659977316856384 in
  let result := pd.loc_set_scalar result "Asia (Sans Japan)" 0.385555833578110 in
  let result := pd.loc_set_scalar result "Middle East and Africa" 0.185499981045723 in
  let result := pd.loc_set_scalar result "Latin America" 0.491537630558014 in
  let result := pd.loc_set_scalar result "China" 0.474730312824249 in
  let result := pd.loc_set_scalar result "India" 0.725081980228424 in
  let result := pd.loc_set_scalar result "EU" 0.297016531229019 in
  let result := pd.loc_set_scalar result "USA" 0.594563066959381 in
  Ok result)).

(** The resolver constructed for a grid source, a grid range and a dataset
    version. *)
Definition cfg (source : GRID_SOURCE) (range : GRID_RANGE) (version : value)
  : ElectricityGenOnGrid :=
  ElectricityGenOnGrid__init__
    {| emissions_grid_source := VGRID_SOURCE source;
       emissions_grid_range := VGRID_RANGE range |}
    (Some version).

(** The value a reference table holds in column [name] in the row whose
    "Year" entry is [year]: [year_row] finds that row. *)
Fixpoint year_row (year : Z) (years : list pd.scalar) : option nat :=
  match years with
  | [] => None
  | I y :: rest => if Z.eqb y year then Some O else S <$> year_row year rest
  | F _ :: rest => S <$> year_row year rest
  end.

Definition reference_value (grid : pd.DataFrame) (year : Z) (name : string)
  : option pd.scalar :=
  match pd.lookup_series "Year" (pd.series grid), pd.lookup_series name (pd.series grid) with
  | Some years, Some vs => i ← year_row year years; vs !! i
  | _, _ => None
  end.

(** ** Case folding, said without [lower] *)

(** KELVIN SIGN U+212A in UTF-8. *)
Definition KELVIN_SIGN : string :=
  String "226" (String "132" (String "170" EmptyString)).

(** The text after a KELVIN SIGN (bytes 226 132 170) at the head of a
    text. *)
Definition after_kelvin (s : string) : option string :=
  match s with
  | String c (String c1 (String c2 rest)) =>
      if Ascii.eqb c "226" && Ascii.eqb c1 "132" && Ascii.eqb c2 "170"
      then Some rest else None
  | _ => None
  end.

(** The text [s] reads as the spelling [t] when case is ignored: going
    through [t], [s] has the same character, or the capital letter of it,
    or, where [t] has "k", the KELVIN SIGN. *)
Fixpoint reads_as (s t : string) : bool :=
  match t with
  | EmptyString =>
      match s with
      | EmptyString => true
      | String _ _ => false
      end
  | String b t' =>
      match s with
      | EmptyString => false
      | String a s' =>
          (Ascii.eqb a b
           || (Py.is_upper a && Ascii.eqb (ascii_of_N (N_of_ascii a + 32)) b))
          && reads_as s' t'
      end
      || (Ascii.eqb b "k"
          && match after_kelvin s with
             | Some rest => reads_as rest t'
             | None => false
             end)
  end.

(** A spelling made of ASCII characters none of which is a capital
    letter. *)
Fixpoint plain (t : string) : bool :=
  match t with
  | EmptyString => true
  | String b t' => (N_of_ascii b <? 128)%N && negb (Py.is_upper b) && plain t'
  end.

(** ** Vocabulary of the specification *)

(** A dataset version is valid when it equals one of 1, 2, 3, 4. *)
Definition valid_version (v : value) : bool :=
  existsb (Py.eq v) [VInt 1; VInt 2; VInt 3; VInt 4].

(** The column of a reference table that a grid range selects. *)
Definition range_column (r : GRID_RANGE) : string :=
  match r with
  | MEAN => "medium"
  | HIGH => "high"
  | LOW => "low"
  end.

(** The years 2015, 2016, ..., 2060, counted up from 2015. *)
Definition years_2015_2060 : list Z :=
  (fun i => 2015 + Z.of_nat i) <$> seq 0 46.

(** The shape of a yearly table: 46 rows labelled by the years, the ten
    region columns in their order, one cell per row in every column. *)
Definition yearly_table (df : pd.DataFrame) : Prop :=
  pd.index df = years_2015_2060 /\
  length (pd.index df) = 46%nat /\
  pd.columns df = region_columns /\
  length (pd.columns df) = 10%nat /\
  Forall (fun col => length col.2 = 46%nat) (pd.series df).

(** Column [name] holds the float [x] in every row of [df]. *)
Definition constant_column (df : pd.DataFrame) (name : string) (x : float) : Prop :=
  Forall (fun year => pd.loc df year name = Some (F x)) (pd.index df).

(** Two characters that are the same up to the case of a letter. *)
Definition same_letter (a b : ascii) : bool :=
  Ascii.eqb a b
  || (Py.is_upper a && Ascii.eqb b (ascii_of_N (N_of_ascii a + 32)))
  || (Py.is_lower a && Ascii.eqb b (ascii_of_N (N_of_ascii a - 32))).

(** [s] is a case variant of [t]: the same text up to the case of its
    letters. *)
Fixpoint case_variant (s t : string) : bool :=
  match s, t with
  | EmptyString, EmptyString => true
  | String a s', String b t' => same_letter a b && case_variant s' t'
  | _, _ => false
  end.

(** The synonym tables of the three normalizers, and the message each one
    puts before the rejected text. *)
Definition conversion_source_synonyms : list (string * CO2EQ_SOURCE) :=
  [("ar5 with feedback", AR5_WITH_FEEDBACK); ("ar5_with_feedback", AR5_WITH_FEEDBACK);
   ("ar4", AR4); ("sar", SAR)].

Definition grid_source_synonyms : list (string * GRID_SOURCE) :=
  [("meta-analysis", META); ("meta_analysis", META); ("meta analysis", META);
   ("ipcc only", IPCC); ("ipcc_only", IPCC)].

Definition grid_range_synonyms : list (string * GRID_RANGE) :=
  [("mean", MEAN); ("median", MEAN); ("high", HIGH); ("low", LOW)].

(** A normalizer [f] follows the table [synonyms]: text is accepted exactly
    when its lower-cased form is a spelling of the table, which is to say
    when it reads as a spelling of the table with case ignored; the result
    is the member listed for that spelling, and any other text is rejected
    with a [ValueError] made of [prefix] and the text as it was given. *)
Definition follows_table {E} (f : value -> outcome E)
  (synonyms : list (string * E)) (prefix : string) : Prop :=
  forall s : string,
    (forall e, f (VStr s) = Ok e <-> (Py.lower s, e) ∈ synonyms) /\
    ((exists e, f (VStr s) = Ok e) <-> Py.lower s ∈ synonyms.*1) /\
    (Py.lower s ∉ synonyms.*1 <-> f (VStr s) = Raise (ValueError (prefix +:+ s))) /\
    (forall e, f (VStr s) = Ok e <->
               exists t, (t, e) ∈ synonyms /\ reads_as s t = true) /\
    ((forall t, t ∈ synonyms.*1 -> reads_as s t = false) <->
     f (VStr s) = Raise (ValueError (prefix +:+ s))).

(** [needle] occurs in [text]. *)
Definition mentions (needle text : string) : bool :=
  match String.index 0 needle text with
  | Some _ => true
  | None => false
  end.

(** The pair (CH4 multiplier, N2O multiplier) of a constructed converter. *)
Definition multipliers (c : outcome CO2Equiv) : outcome (Z * Z) :=
  c ← c; Ok (CH4multiplier c, N2Omultiplier c).

(** ** The steps of the two table methods *)

(** The frame [conv_ref_grid_CO2eq_per_KWh] starts from, and the nine
    assignments it ends with. *)
Definition blank_table : pd.DataFrame :=
  pd.set_index_name (pd.DataFrame_empty (Py.range 2015 2061) region_columns) "Year".

Definition with_regions (result : pd.DataFrame) : pd.DataFrame :=
  let result := pd.loc_set_scalar result "OECD90" 0.454068989 in
  let result := pd.loc_set_scalar result "Eastern Europe" 0.724747956 in
  let result := pd.loc_set_scalar result "Asia (Sans Japan)" 0.457658947 in
  let result := pd.loc_set_scalar result "Middle East and Africa" 0.282243907 in
  let result := pd.loc_set_scalar result "Latin America" 0.564394712 in
  let result := pd.loc_set_scalar result "China" 0.535962403 in
  let result := pd.loc_set_scalar result "India" 0.787832379 in
  let result := pd.loc_set_scalar result "EU" 0.360629290 in
  let result := pd.loc_set_scalar result "USA" 0.665071666 in
  result.

(** What the assignments keep: the index, the columns and their order, and
    the number of cells per column. *)
Definition table_inv (df : pd.DataFrame) : Prop :=
  pd.index df = Py.range 2015 2061 /\
  pd.columns df = region_columns /\
  Forall (fun col : string * list pd.scalar => length col.2 = 46%nat) (pd.series df).

(** The ten assignments of [conv_ref_grid_CO2_per_KWh]. *)
Definition with_direct_factors (result : pd.DataFrame) : pd.DataFrame :=
  let result := pd.loc_set_scalar result "World" 0.484512031078339 in
  let result := pd.loc_set_scalar result "OECD90" 0.392126590013504 in
  let result := pd.loc_set_scalar result "Eastern Europe" 0.659977316856384 in
  let result := pd.loc_set_scalar result "Asia (Sans Japan)" 0.385555833578110 in
  let result := pd.loc_set_scalar result "Middle East and Africa" 0.185499981045723 in
  let result := pd.loc_set_scalar result "Latin America" 0.491537630558014 in
  let result := pd.loc_set_scalar result "China" 0.474730312824249 in
  let result := pd.loc_set_scalar result "India" 0.725081980228424 in
  let result := pd.loc_set_scalar result "EU" 0.297016531229019 in
  let result := pd.loc_set_scalar result "USA" 0.594563066959381 in
  result.

(** ** Further vocabulary *)

(** Membership of a value in one of the enumerations. *)
Definition is_CO2EQ_SOURCE (v : value) : bool :=
  match v with
  | VCO2EQ_SOURCE _ => true
  | _ => false
  end.

Definition is_GRID_SOURCE (v : value) : bool :=
  match v with
  | VGRID_SOURCE _ => true
  | _ => false
  end.

Definition is_GRID_RANGE (v : value) : bool :=
  match v with
  | VGRID_RANGE _ => true
  | _ => false
  end.

Definition is_text (v : value) : bool :=
  match v with
  | VStr _ => true
  | _ => false
  end.

(** The [name] of a member, as the [enum.Enum] calls of the module give
    it. *)
Definition CO2EQ_SOURCE_name (c : CO2EQ_SOURCE) : string :=
  match c with
  | AR5_WITH_FEEDBACK => "AR5_WITH_FEEDBACK"
  | AR4 => "AR4"
  | SAR => "SAR"
  end.

Definition GRID_SOURCE_name (g : GRID_SOURCE) : string :=
  match g with
  | META => "META"
  | IPCC => "IPCC"
  end.

Definition GRID_RANGE_name (r : GRID_RANGE) : string :=
  match r with
  | MEAN => "MEAN"
  | HIGH => "HIGH"
  | LOW => "LOW"
  end.

(** A resolver with the given attribute values. *)
Definition resolver (source range version : value) : ElectricityGenOnGrid :=
  {| ac := {| emissions_grid_source := source; emissions_grid_range := range |};
     grid_emissions_version := version |}.

(** A cell that holds a number: an integer, or a float that is not NaN. *)
Definition is_number (c : pd.scalar) : bool :=
  match c with
  | I _ => true
  | F x => negb (PrimFloat.is_nan x)
  end.

(** Every cell of the frame holds a number. *)
Definition filled (df : pd.DataFrame) : bool :=
  forallb (fun col : string * list pd.scalar => forallb is_number col.2) (pd.series df).

(** The "World" column of [df] follows column [name] of the reference
    table [grid] year by year: the rows of [df] are the years 2015 to 2060,
    and for each of these years "World" holds what [grid] holds in the row
    of the same year. *)
Definition world_follows (df grid : pd.DataFrame) (name : string) : Prop :=
  pd.index df = years_2015_2060 /\
  Forall (fun year =>
            pd.loc df year "World" = reference_value grid year name /\
            reference_value grid year name <> None)
         years_2015_2060.

(** Both cells hold floats and the first is below the second. *)
Definition cell_ltb (a b : option pd.scalar) : bool :=
  match a, b with
  | Some (F x), Some (F y) => PrimFloat.ltb x y
  | _, _ => false
  end.

(** In every year from 2015 to 2060, "World" of [low] is a float below
    "World" of [mid], which is a float below "World" of [high]. *)
Definition world_ordered (low mid high : pd.DataFrame) : bool :=
  forallb (fun year =>
             cell_ltb (pd.loc low year "World") (pd.loc mid year "World")
             && cell_ltb (pd.loc mid year "World") (pd.loc high year "World"))
          years_2015_2060.

(** Two results are tables whose "World" cells for 2015 hold equal
    floats. *)
Definition same_world_2015 (a b : outcome pd.DataFrame) : bool :=
  match a, b with
  | Ok x, Ok y =>
      match pd.loc x 2015 "World", pd.loc y 2015 "World" with
      | Some (F u), Some (F v) => PrimFloat.eqb u v
      | _, _ => false
      end
  | _, _ => false
  end.

(** In every row and in every region column other than "World", the cell
    of [direct] is below the cell of [equivalent]. *)
Definition regions_below (direct equivalent : pd.DataFrame) : bool :=
  forallb (fun year =>
             forallb (fun name =>
                        cell_ltb (pd.loc direct year name) (pd.loc equivalent year name))
                     (tail region_columns))
          (pd.index equivalent).

(** * Sanity checks *)

Example str_int_99 : Py.str (VInt 99) = "99".
Proof. reflexivity. Qed.

Example lower_mixed : Py.lower "Meta-Analysis" = "meta-analysis".
Proof. reflexivity. Qed.

Example mentions_version : mentions "99" "no version 99" = true.
Proof. reflexivity. Qed.

Example lower_kelvin_sign :
  Py.lower ("AR5 with feedbac" +:+ KELVIN_SIGN) = "ar5 with feedback".
Proof. reflexivity. Qed.

Example conversion_source_kelvin_sign :
  string_to_conversion_source (VStr ("AR5 with feedbac" +:+ KELVIN_SIGN))
    = Ok AR5_WITH_FEEDBACK.
Proof. reflexivity. Qed.

Example lower_dotted_capital_i :
  Py.lower (String "196" (String "176" "PCC only"))
    = String "i" (String "204" (String "135" "pcc only")).
Proof. reflexivity. Qed.

Example reads_as_kelvin_sign :
  reads_as ("Ar5_With_Feedbac" +:+ KELVIN_SIGN) "ar5_with_feedback" = true
  /\ reads_as "ar5 with feedbac" "ar5 with feedback" = false
  /\ reads_as "sar " "sar" = false.
Proof. repeat split. Qed.

Example grid_range_median :
  string_to_emissions_grid_range (VStr "MEDIAN") = Ok MEAN.
Proof. reflexivity. Qed.

(** * Lemmas on frames *)

Lemma position_elem (y : Z) (l : list Z) :
  y ∈ l -> exists i, pd.position y l = Some i /\ (i < length l)%nat.
Proof.
  induction l as [|x l IH]; intros Hin.
  - inversion Hin.
  - simpl. destruct (Z.eqb_spec x y) as [->|Hne].
    + exists O. split; [reflexivity | simpl; lia].
    + apply elem_of_cons in Hin as [Heq | Hin]; [congruence |].
      destruct (IH Hin) as (i & Hi & Hlt).
      exists (S i). rewrite Hi. split; [reflexivity | simpl; lia].
Qed.

Lemma lookup_assign_eq name vs cols :
  pd.lookup_series name (pd.assign name vs cols) = Some vs.
Proof.
  induction cols as [|[n old] cols IH]; simpl.
  - now rewrite String.eqb_refl.
  - destruct (String.eqb n name) eqn:E; simpl; rewrite E; [reflexivity | exact IH].
Qed.

Lemma lookup_assign_ne n name vs cols :
  n <> name ->
  pd.lookup_series n (pd.assign name vs cols) = pd.lookup_series n cols.
Proof.
  intros Hne. induction cols as [|[m old] cols IH]; simpl.
  - destruct (String.eqb_spec name n); [congruence | reflexivity].
  - destruct (String.eqb_spec m name) as [->|Hm]; simpl.
    + destruct (String.eqb_spec name n); [congruence | reflexivity].
    + destruct (String.eqb m n); [reflexivity | exact IH].
Qed.

Lemma assign_names name vs cols :
  name ∈ cols.*1 -> (pd.assign name vs cols).*1 = cols.*1.
Proof.
  induction cols as [|[n old] cols IH]; intros Hin.
  - inversion Hin.
  - cbn [pd.assign]. destruct (String.eqb_spec n name) as [->|Hne]; [reflexivity |].
    rewrite !fmap_cons in *. cbn [fst] in *.
    apply elem_of_cons in Hin as [Heq | Hin]; [congruence |].
    f_equal. now apply IH.
Qed.

Lemma assign_lengths (k : nat) name vs cols :
  length vs = k ->
  Forall (fun col : string * list pd.scalar => length col.2 = k) cols ->
  Forall (fun col : string * list pd.scalar => length col.2 = k) (pd.assign name vs cols).
Proof.
  intros Hvs. induction 1 as [|[n old] cols Hold Hcols IH]; simpl.
  - repeat constructor. exact Hvs.
  - destruct (String.eqb n name); constructor; auto.
Qed.

Lemma loc_set_scalar_eq df name x year :
  year ∈ pd.index df ->
  pd.loc (pd.loc_set_scalar df name x) year name = Some (F x).
Proof.
  intros Hin. destruct (position_elem _ _ Hin) as (i & Hi & Hlt).
  unfold pd.loc, pd.loc_set_scalar; simpl.
  rewrite Hi, lookup_assign_eq. now apply lookup_replicate_2.
Qed.

Lemma loc_set_scalar_ne df name x year other :
  other <> name ->
  pd.loc (pd.loc_set_scalar df name x) year other = pd.loc df year other.
Proof.
  intros Hne. unfold pd.loc, pd.loc_set_scalar; simpl.
  now rewrite lookup_assign_ne.
Qed.

(** * Lemmas on the grid tables *)

Ltac region_name :=
  repeat first [apply list_elem_of_here | apply list_elem_of_further].

Lemma table_inv_blank : table_inv blank_table.
Proof.
  repeat split; vm_compute; repeat constructor.
Qed.

Lemma table_inv_set_scalar df name x :
  name ∈ region_columns -> table_inv df -> table_inv (pd.loc_set_scalar df name x).
Proof.
  intros Hname (Hidx & Hcols & Hlen). repeat split.
  - exact Hidx.
  - unfold pd.columns in *. cbn [pd.series pd.loc_set_scalar].
    rewrite assign_names; [exact Hcols | now rewrite Hcols].
  - cbn [pd.series pd.loc_set_scalar]. apply assign_lengths; [| exact Hlen].
    now rewrite length_replicate, Hidx.
Qed.

Lemma table_inv_set_values df name values result :
  name ∈ region_columns -> table_inv df ->
  pd.loc_set_values df name values = Ok result -> table_inv result.
Proof.
  intros Hname (Hidx & Hcols & Hlen). unfold pd.loc_set_values.
  destruct (Nat.eqb_spec (length values) (length (pd.index df))) as [Hv|]; [| discriminate].
  intros [= <-]. repeat split.
  - exact Hidx.
  - unfold pd.columns in *. cbn [pd.series].
    rewrite assign_names; [exact Hcols | now rewrite Hcols].
  - cbn [pd.series]. apply assign_lengths; [| exact Hlen].
    now rewrite Hv, Hidx.
Qed.

Lemma table_inv_with_regions df : table_inv df -> table_inv (with_regions df).
Proof.
  intros H. unfold with_regions.
  repeat (apply table_inv_set_scalar; [region_name |]). exact H.
Qed.

Lemma table_inv_yearly df : table_inv df -> yearly_table df.
Proof.
  intros (Hidx & Hcols & Hlen). unfold yearly_table.
  rewrite Hidx, Hcols. repeat split; try reflexivity. exact Hlen.
Qed.

(** A table that is returned is the blank table with "World" filled from
    an array of values and the nine regions assigned after it. *)
Lemma conv_Ok_inv self df :
  conv_ref_grid_CO2eq_per_KWh self = Ok df ->
  exists values result,
    pd.loc_set_values blank_table "World" values = Ok result /\
    df = with_regions result.
Proof.
  unfold conv_ref_grid_CO2eq_per_KWh, lru_cache, data_func. cbv zeta.
  fold blank_table. unfold mbind, outcome_bind.
  match goal with
  | |- match ?g with _ => _ end = _ -> _ => destruct g as [grid | e]; [| discriminate]
  end.
  match goal with
  | |- match ?w with _ => _ end = _ -> _ =>
      destruct w as [result | e] eqn:Hworld; [| discriminate]
  end.
  intros [= <-].
  repeat match type of Hworld with
         | (if ?c then _ else _) = _ => destruct c
         end.
  all: try discriminate Hworld.
  all: match type of Hworld with
       | match ?l with _ => _ end = _ => destruct l as [values | e]
       end.
  all: try discriminate Hworld.
  all: exists values, result; split; [exact Hworld | reflexivity].
Qed.

Lemma conv_Ok_table_inv self df :
  conv_ref_grid_CO2eq_per_KWh self = Ok df -> table_inv df.
Proof.
  intros H. destruct (conv_Ok_inv _ _ H) as (values & result & Hset & ->).
  apply table_inv_with_regions.
  eapply table_inv_set_values; [| apply table_inv_blank | exact Hset].
  region_name.
Qed.

Lemma valid_version_cases v :
  valid_version v = true -> v ∈ [VInt 1; VInt 2; VInt 3; VInt 4; VBool true].
Proof.
  unfold valid_version. destruct v as [| [] | z | | | |]; simpl; try discriminate.
  - intros _. region_name.
  - rewrite !orb_true_iff, !Z.eqb_eq.
    intros [-> | [-> | [-> | [-> | ?]]]]; try discriminate; region_name.
Qed.

Lemma conv_valid_Ok g r v :
  valid_version v = true -> exists df, conv_ref_grid_CO2eq_per_KWh (cfg g r v) = Ok df.
Proof.
  intros H. apply valid_version_cases in H.
  rewrite !elem_of_cons, elem_of_nil in H.
  destruct H as [-> | [-> | [-> | [-> | [-> | []]]]]];
    destruct g, r; vm_compute; eexists; reflexivity.
Qed.

Lemma with_regions_constants result :
  constant_column (with_regions result) "OECD90" 0.454068989 /\
  constant_column (with_regions result) "Eastern Europe" 0.724747956 /\
  constant_column (with_regions result) "Asia (Sans Japan)" 0.457658947 /\
  constant_column (with_regions result) "Middle East and Africa" 0.282243907 /\
  constant_column (with_regions result) "Latin America" 0.564394712 /\
  constant_column (with_regions result) "China" 0.535962403 /\
  constant_column (with_regions result) "India" 0.787832379 /\
  constant_column (with_regions result) "EU" 0.360629290 /\
  constant_column (with_regions result) "USA" 0.665071666.
Proof.
  repeat split; apply Forall_forall; intros year Hyear;
    unfold with_regions; cbv zeta;
    rewrite ?loc_set_scalar_ne by discriminate;
    apply loc_set_scalar_eq; exact Hyear.
Qed.

Lemma invalid_version_neq v :
  valid_version v = false ->
  Py.eq v (VInt 1) = false /\ Py.eq v (VInt 2) = false /\
  Py.eq v (VInt 3) = false /\ Py.eq v (VInt 4) = false.
Proof.
  unfold valid_version. simpl. rewrite !orb_false_iff. tauto.
Qed.



(** * Lemmas on text *)

Lemma same_letter_lower (a b : ascii) :
  same_letter a b = true -> Py.lower_char a = Py.lower_char b.
Proof.
  unfold same_letter. rewrite !orb_true_iff, !andb_true_iff, !Ascii.eqb_eq.
  intros [[-> | [Hcase ->]] | [Hcase ->]]; [reflexivity | |];
    revert Hcase;
    destruct a as [[] [] [] [] [] [] [] []]; vm_compute;
    intros Hcase; solve [reflexivity | discriminate Hcase].
Qed.

Lemma string_length_ind (P : string -> Prop) :
  (forall s, (forall u, (String.length u < String.length s)%nat -> P u) -> P s) ->
  forall s, P s.
Proof.
  intros H s. remember (String.length s) as n eqn:E. revert s E.
  induction n as [n IH] using lt_wf_ind. intros s ->.
  apply H. intros u Hu. exact (IH _ Hu u eq_refl).
Qed.

(** Two characters that are the same up to case are equal or both ASCII. *)
Lemma same_letter_cases (a b : ascii) :
  same_letter a b = true ->
  a = b \/ ((N_of_ascii a < 128)%N /\ (N_of_ascii b < 128)%N).
Proof.
  unfold same_letter. rewrite !orb_true_iff, !andb_true_iff, !Ascii.eqb_eq.
  intros [[-> | [Hcase ->]] | [Hcase ->]]; [now left | |];
    right; revert Hcase;
    destruct a as [[] [] [] [] [] [] [] []]; vm_compute;
    intros Hcase; solve [discriminate Hcase | split; reflexivity].
Qed.

Lemma ascii_eqb_high (a x : ascii) :
  (N_of_ascii a < 128)%N -> (128 <= N_of_ascii x)%N -> Ascii.eqb a x = false.
Proof.
  intros Ha Hx. destruct (Ascii.eqb_spec a x) as [-> |]; [lia | reflexivity].
Qed.

Lemma same_letter_eqb_high (a b x : ascii) :
  same_letter a b = true -> (128 <= N_of_ascii x)%N ->
  Ascii.eqb a x = Ascii.eqb b x.
Proof.
  intros Hab Hx. destruct (same_letter_cases a b Hab) as [-> | [Ha Hb]];
    [reflexivity | now rewrite !ascii_eqb_high].
Qed.

Ltac high_byte := vm_compute; discriminate.

Ltac shorter := cbn [String.length]; lia.

Lemma case_variant_lower (s t : string) :
  case_variant s t = true -> Py.lower s = Py.lower t.
Proof.
  revert t. induction s as [s IH] using string_length_ind. intros t H.
  destruct s as [| a s'], t as [| b t']; try discriminate H; [reflexivity |].
  cbn [case_variant] in H. apply andb_true_iff in H as [Hab Hst].
  pose proof (same_letter_lower a b Hab) as Hlow.
  pose proof (same_letter_eqb_high a b "226" Hab ltac:(high_byte)) as E226.
  pose proof (same_letter_eqb_high a b "196" Hab ltac:(high_byte)) as E196.
  assert (Htail : Py.lower s' = Py.lower t') by (apply IH; [shorter | exact Hst]).
  cbn [Py.lower]. rewrite E226, E196.
  destruct (Ascii.eqb_spec b "226") as [-> | _].
  { apply Ascii.eqb_eq in E226 as ->.
    destruct s' as [| a1 [| a2 rest]], t' as [| b1 [| b2 rest']];
      cbn [case_variant] in Hst; rewrite ?andb_false_r in Hst;
      try discriminate Hst; try reflexivity; try (now rewrite Htail).
    apply andb_true_iff in Hst as [H1 Hst]. apply andb_true_iff in Hst as [H2 Hst].
    rewrite (same_letter_eqb_high a1 b1 "132" H1 ltac:(high_byte)).
    rewrite (same_letter_eqb_high a2 b2 "170" H2 ltac:(high_byte)).
    destruct (Ascii.eqb b1 "132" && Ascii.eqb b2 "170"); [| now rewrite Htail].
    f_equal. apply IH; [shorter | exact Hst]. }
  destruct (Ascii.eqb_spec b "196") as [-> | _].
  { apply Ascii.eqb_eq in E196 as ->.
    destruct s' as [| a1 rest], t' as [| b1 rest'];
      cbn [case_variant] in Hst; try discriminate Hst; try reflexivity; try (now rewrite Htail).
    apply andb_true_iff in Hst as [H1 Hst].
    rewrite (same_letter_eqb_high a1 b1 "176" H1 ltac:(high_byte)).
    destruct (Ascii.eqb b1 "176"); [| now rewrite Htail].
    do 3 f_equal. apply IH; [shorter | exact Hst]. }
  now rewrite Hlow, Htail.
Qed.

(** A blank at the end of a text stays a blank at the end of the lowered
    text. *)
Lemma lower_app_blank (s : string) : Py.lower (s +:+ " ") = Py.lower s +:+ " ".
Proof.
  induction s as [s IH] using string_length_ind.
  destruct s as [| a s']; [reflexivity |].
  assert (Htail : Py.lower (s' +:+ " ") = Py.lower s' +:+ " ") by (apply IH; shorter).
  simpl.
  destruct (Ascii.eqb a "226").
  { destruct s' as [| a1 [| a2 rest]].
    - reflexivity.
    - simpl in *. rewrite andb_false_r. rewrite Htail. reflexivity.
    - change (String a1 (String a2 rest) +:+ " ")
        with (String a1 (String a2 (rest +:+ " "))) in *.
      cbv iota.
      destruct (Ascii.eqb a1 "132" && Ascii.eqb a2 "170"); [| rewrite Htail; reflexivity].
      rewrite (IH rest) by shorter. reflexivity. }
  destruct (Ascii.eqb a "196").
  { destruct s' as [| a1 rest].
    - reflexivity.
    - change (String a1 rest +:+ " ") with (String a1 (rest +:+ " ")) in *.
      cbv iota.
      destruct (Ascii.eqb a1 "176"); [| rewrite Htail; reflexivity].
      rewrite (IH rest) by shorter. reflexivity. }
  rewrite Htail. reflexivity.
Qed.

Lemma lower_cons_nonempty (a : ascii) (s : string) : Py.lower (String a s) <> "".
Proof.
  cbn [Py.lower].
  repeat match goal with
         | |- context [if ?c then _ else _] => destruct c
         | |- context [match ?x with EmptyString => _ | String _ _ => _ end] =>
             destruct x
         end; discriminate.
Qed.

Lemma lower_char_reads (a b : ascii) :
  Py.is_upper b = false ->
  Py.lower_char a = b <->
  Ascii.eqb a b || (Py.is_upper a && Ascii.eqb (ascii_of_N (N_of_ascii a + 32)) b) = true.
Proof.
  intros Hb. unfold Py.lower_char. destruct (Py.is_upper a) eqn:Ha.
  - destruct (Ascii.eqb_spec a b) as [-> | Hne]; [congruence |].
    cbn [orb andb]. now rewrite Ascii.eqb_eq.
  - cbn [andb]. now rewrite orb_false_r, Ascii.eqb_eq.
Qed.

Lemma after_kelvin_Some (s rest : string) :
  after_kelvin s = Some rest -> s = String "226" (String "132" (String "170" rest)).
Proof.
  destruct s as [| c [| c1 [| c2 r]]]; try discriminate. cbn [after_kelvin].
  destruct (Ascii.eqb_spec c "226") as [-> |]; [| discriminate].
  destruct (Ascii.eqb_spec c1 "132") as [-> |]; [| discriminate].
  destruct (Ascii.eqb_spec c2 "170") as [-> |]; [| discriminate].
  now intros [= ->].
Qed.

(** Without a KELVIN SIGN at its head, a text that does not start with an
    ASCII character is lowered to a text that does not either. *)
Lemma lower_high_head (a : ascii) (s : string) :
  (128 <= N_of_ascii a)%N -> after_kelvin (String a s) = None ->
  exists c rest, Py.lower (String a s) = String c rest /\
    ((128 <= N_of_ascii c)%N \/
     exists rest', rest = String "204" rest').
Proof.
  intros Ha Hk. cbn [Py.lower].
  destruct (Ascii.eqb_spec a "226") as [-> | _].
  { destruct s as [| c1 [| c2 r]]; try (do 2 eexists; split; [reflexivity | now left]).
    cbn [after_kelvin] in Hk. rewrite Ascii.eqb_refl in Hk. cbn [andb] in Hk.
    destruct (Ascii.eqb c1 "132" && Ascii.eqb c2 "170"); [discriminate Hk |].
    do 2 eexists; split; [reflexivity | now left]. }
  destruct (Ascii.eqb_spec a "196") as [-> | _].
  { destruct s as [| c1 r]; [do 2 eexists; split; [reflexivity | now left] |].
    destruct (Ascii.eqb c1 "176").
    - do 2 eexists; split; [reflexivity | right; eexists; reflexivity].
    - do 2 eexists; split; [reflexivity | now left]. }
  do 2 eexists; split; [reflexivity |]. left.
  unfold Py.lower_char. replace (Py.is_upper a) with false; [exact Ha |].
  unfold Py.is_upper. symmetry. apply andb_false_iff. right. apply N.leb_gt. lia.
Qed.

(** Lowering an ASCII character at the head of a text lowers that
    character and goes on. *)
Lemma lower_ascii_head (a : ascii) (s : string) :
  (N_of_ascii a < 128)%N ->
  Py.lower (String a s) = String (Py.lower_char a) (Py.lower s).
Proof.
  intros Ha. cbn [Py.lower].
  rewrite (ascii_eqb_high a "226" Ha ltac:(high_byte)).
  now rewrite (ascii_eqb_high a "196" Ha ltac:(high_byte)).
Qed.

(** The lowered text is the plain spelling [t] exactly when the text reads
    as [t]. *)
Lemma lower_reads_as (t : string) :
  plain t = true -> forall s, Py.lower s = t <-> reads_as s t = true.
Proof.
  induction t as [| b t' IH]; intros Hp s.
  - destruct s as [| a s']; [now split |].
    split; [intros H; now apply lower_cons_nonempty in H | discriminate].
  - cbn [plain] in Hp. apply andb_true_iff in Hp as [Hb Hp'].
    apply andb_true_iff in Hb as [Hb Hup].
    apply N.ltb_lt in Hb. apply negb_true_iff in Hup. specialize (IH Hp').
    destruct s as [| a s'].
    { cbn. rewrite andb_false_r. split; discriminate. }
    cbn [reads_as].
    destruct (after_kelvin (String a s')) as [rest |] eqn:Hk.
    + apply after_kelvin_Some in Hk. injection Hk as -> ->.
      rewrite (Ascii.eqb_sym "226" b), (ascii_eqb_high b "226" Hb ltac:(high_byte)).
      change (Py.lower (String "226" (String "132" (String "170" rest))))
        with (String "k" (Py.lower rest)).
      change (Py.is_upper "226") with false. cbn [orb andb].
      rewrite andb_true_iff, Ascii.eqb_eq, <- IH.
      split; [intros [= <- <-]; now split | intros [-> ->]; reflexivity].
    + rewrite andb_false_r, orb_false_r.
      destruct (N.lt_ge_cases (N_of_ascii a) 128) as [Ha | Ha].
      * rewrite (lower_ascii_head a s' Ha).
        rewrite andb_true_iff, <- IH, <- (lower_char_reads a b Hup).
        split; [intros [= <- <-]; now split | intros [-> ->]; reflexivity].
      * destruct (lower_high_head a s' Ha Hk) as (c & r & -> & Hc).
        rewrite (ascii_eqb_high b a Hb Ha) || rewrite (Ascii.eqb_sym a b), (ascii_eqb_high b a Hb Ha).
        replace (Py.is_upper a) with false.
        2:{ unfold Py.is_upper. symmetry. apply andb_false_iff. right.
            apply N.leb_gt. lia. }
        cbn [orb andb]. split; [| discriminate].
        intros [= -> ->]. destruct Hc as [Hc | (r' & ->)]; [lia |].
        cbn [plain] in Hp'. apply andb_true_iff in Hp' as [Hp' _].
        apply andb_true_iff in Hp' as [Hp' _]. vm_compute in Hp'. discriminate Hp'.
Qed.

(** For a table of plain spellings, looking up the lowered text is looking
    for a spelling that the text reads as. *)
Lemma reads_as_table {E} (synonyms : list (string * E)) (s : string) (e : E) :
  forallb plain synonyms.*1 = true ->
  (Py.lower s, e) ∈ synonyms <->
  exists t, (t, e) ∈ synonyms /\ reads_as s t = true.
Proof.
  intros Hplain.
  assert (Hp : forall t e', (t, e') ∈ synonyms -> plain t = true).
  { intros t e' Hin. rewrite forallb_forall in Hplain. apply Hplain.
    apply list_elem_of_In, list_elem_of_fmap. exists (t, e'). now split. }
  split.
  - intros Hin. exists (Py.lower s). split; [exact Hin |].
    now apply (lower_reads_as _ (Hp _ _ Hin)).
  - intros (t & Hin & Hread).
    apply (lower_reads_as _ (Hp _ _ Hin)) in Hread. now rewrite Hread.
Qed.

Lemma reads_as_names {E} (synonyms : list (string * E)) (s : string) :
  forallb plain synonyms.*1 = true ->
  Py.lower s ∉ synonyms.*1 <->
  (forall t, t ∈ synonyms.*1 -> reads_as s t = false).
Proof.
  intros Hplain. rewrite forallb_forall in Hplain.
  assert (Hp : forall t, t ∈ synonyms.*1 -> plain t = true).
  { intros t Hin. apply Hplain. now apply list_elem_of_In. }
  split.
  - intros Hnot t Hin. destruct (reads_as s t) eqn:Hread; [| reflexivity].
    apply (lower_reads_as _ (Hp _ Hin)) in Hread. now subst t.
  - intros Hall Hin. specialize (Hall _ Hin).
    assert (reads_as s (Py.lower s) = true) by now apply (lower_reads_as _ (Hp _ Hin)).
    congruence.
Qed.

Ltac synonym_cases :=
  repeat match goal with
         | |- context [String.eqb ?a ?b] =>
             destruct (String.eqb_spec a b) as [-> | ?]
         end.

Ltac synonym_facts :=
  simpl; repeat split; intros;
  rewrite ?elem_of_cons, ?elem_of_nil in *;
  repeat match goal with
         | H : exists _, _ |- _ => destruct H
         | H : _ \/ _ |- _ => destruct H
         | H : _ /\ _ |- _ => destruct H
         | H : (_, _) = (_, _) |- _ => injection H as ? ?
         | H : Ok _ = Ok _ |- _ => injection H as ?
         end;
  subst; try congruence; try tauto; eauto 10.

(** * Properties *)

(** C1: with grid source META, grid range LOW and dataset version 3 the
    table returned by [conv_ref_grid_CO2eq_per_KWh] has 0.350044212133840
    in column "World" at year 2050, which is the "low" entry of the META
    version 3 reference table for 2050. *)
Theorem C1_meta_low_v3_world_2050 :
  exists df,
    conv_ref_grid_CO2eq_per_KWh (cfg META LOW (VInt 3)) = Ok df /\
    pd.loc df 2050 "World" = Some (F 0.350044212133840) /\
    reference_value _world_meta_3 2050 "low" = Some (F 0.350044212133840).
Proof.
  eexists. split; [reflexivity |].
  split; vm_compute; reflexivity.
Qed.

(** C2: with grid source IPCC and grid range HIGH the returned table is
    the same for every value of the dataset version, and its "World" cell
    for 2015 is 0.954301230978324, the "high" entry of the IPCC reference
    table for 2015. *)
Theorem C2_ipcc_high_world_2015 :
  exists df,
    (forall version, conv_ref_grid_CO2eq_per_KWh (cfg IPCC HIGH version) = Ok df) /\
    pd.loc df 2015 "World" = Some (F 0.954301230978324) /\
    reference_value _world_ipcc 2015 "high" = Some (F 0.954301230978324).
Proof.
  eexists. split; [intros version; reflexivity |].
  split; vm_compute; reflexivity.
Qed.

(** C3: for a grid source META or IPCC, a grid range MEAN, HIGH or LOW and a
    valid dataset version, the returned table has the rows 2015 to 2060 and
    the ten region columns, and holds in every one of these rows
    OECD90 = 0.454068989, Eastern Europe = 0.724747956,
    Asia (Sans Japan) = 0.457658947, Middle East and Africa = 0.282243907,
    Latin America = 0.564394712, China = 0.535962403, India = 0.787832379,
    EU = 0.360629290 and USA = 0.665071666, whatever the configuration. *)
Theorem C3_region_columns_constant (g : GRID_SOURCE) (r : GRID_RANGE) (v : value) :
  valid_version v = true ->
  exists df,
    conv_ref_grid_CO2eq_per_KWh (cfg g r v) = Ok df /\
    pd.index df = years_2015_2060 /\
    pd.columns df = region_columns /\
    Forall (fun year =>
              pd.loc df year "OECD90" = Some (F 0.454068989) /\
              pd.loc df year "Eastern Europe" = Some (F 0.724747956) /\
              pd.loc df year "Asia (Sans Japan)" = Some (F 0.457658947) /\
              pd.loc df year "Middle East and Africa" = Some (F 0.282243907) /\
              pd.loc df year "Latin America" = Some (F 0.564394712) /\
              pd.loc df year "China" = Some (F 0.535962403) /\
              pd.loc df year "India" = Some (F 0.787832379) /\
              pd.loc df year "EU" = Some (F 0.360629290) /\
              pd.loc df year "USA" = Some (F 0.665071666))
           years_2015_2060 /\
    constant_column df "OECD90" 0.454068989 /\
    constant_column df "Eastern Europe" 0.724747956 /\
    constant_column df "Asia (Sans Japan)" 0.457658947 /\
    constant_column df "Middle East and Africa" 0.282243907 /\
    constant_column df "Latin America" 0.564394712 /\
    constant_column df "China" 0.535962403 /\
    constant_column df "India" 0.787832379 /\
    constant_column df "EU" 0.360629290 /\
    constant_column df "USA" 0.665071666.
Proof.
  intros Hv. destruct (conv_valid_Ok g r v Hv) as (df & Hdf).
  exists df. split; [exact Hdf |].
  destruct (table_inv_yearly _ (conv_Ok_table_inv _ _ Hdf)) as (Hidx & _ & Hcols & _).
  split; [exact Hidx |]. split; [exact Hcols |].
  destruct (conv_Ok_inv _ _ Hdf) as (values & result & _ & ->).
  pose proof (with_regions_constants result) as Hconst.
  split; [| exact Hconst].
  unfold constant_column in Hconst. rewrite Hidx in Hconst.
  destruct Hconst as (H1 & H2 & H3 & H4 & H5 & H6 & H7 & H8 & H9).
  rewrite Forall_forall in *. intros year Hyear.
  repeat split; auto.
Qed.

Lemma C3_region_columns_constant_witness :
  valid_version (VInt 2) = true /\
  exists df,
    conv_ref_grid_CO2eq_per_KWh (cfg META HIGH (VInt 2)) = Ok df /\
    pd.index df = years_2015_2060 /\
    pd.columns df = region_columns /\
    pd.loc df 2015 "OECD90" = Some (F 0.454068989) /\
    pd.loc df 2060 "USA" = Some (F 0.665071666).
Proof.
  split; [reflexivity |].
  destruct (C3_region_columns_constant META HIGH (VInt 2) eq_refl)
    as (df & Hdf & Hidx & Hcols & Hrows & _).
  exists df. split; [exact Hdf |]. split; [exact Hidx |]. split; [exact Hcols |].
  rewrite Forall_forall in Hrows. split.
  - apply (Hrows 2015). vm_compute. region_name.
  - apply (Hrows 2060). vm_compute. region_name.
Defined.

(** C4: for a grid source META or IPCC, a grid range MEAN, HIGH or LOW and a
    valid dataset version, the returned table has 46 rows labelled 2015,
    2016, ..., 2060 and the ten columns World, OECD90, Eastern Europe,
    Asia (Sans Japan), Middle East and Africa, Latin America, China, India,
    EU, USA in this order. *)
Theorem C4_yearly_table_shape (g : GRID_SOURCE) (r : GRID_RANGE) (v : value) :
  valid_version v = true ->
  exists df,
    conv_ref_grid_CO2eq_per_KWh (cfg g r v) = Ok df /\
    pd.index df =
      [2015; 2016; 2017; 2018; 2019; 2020; 2021; 2022; 2023; 2024;
       2025; 2026; 2027; 2028; 2029; 2030; 2031; 2032; 2033; 2034;
       2035; 2036; 2037; 2038; 2039; 2040; 2041; 2042; 2043; 2044;
       2045; 2046; 2047; 2048; 2049; 2050; 2051; 2052; 2053; 2054;
       2055; 2056; 2057; 2058; 2059; 2060] /\
    pd.columns df =
      ["World"; "OECD90"; "Eastern Europe"; "Asia (Sans Japan)";
       "Middle East and Africa"; "Latin America"; "China"; "India";
       "EU"; "USA"] /\
    yearly_table df.
Proof.
  intros Hv. destruct (conv_valid_Ok g r v Hv) as (df & Hdf).
  exists df. split; [exact Hdf |].
  pose proof (conv_Ok_table_inv _ _ Hdf) as Hinv.
  destruct Hinv as (Hidx & Hcols & Hlen).
  split; [rewrite Hidx; reflexivity |].
  split; [rewrite Hcols; reflexivity |].
  apply table_inv_yearly. repeat split; assumption.
Qed.

Lemma C4_yearly_table_shape_witness :
  valid_version (VInt 4) = true /\
  exists df,
    conv_ref_grid_CO2eq_per_KWh (cfg META MEAN (VInt 4)) = Ok df /\
    pd.index df =
      [2015; 2016; 2017; 2018; 2019; 2020; 2021; 2022; 2023; 2024;
       2025; 2026; 2027; 2028; 2029; 2030; 2031; 2032; 2033; 2034;
       2035; 2036; 2037; 2038; 2039; 2040; 2041; 2042; 2043; 2044;
       2045; 2046; 2047; 2048; 2049; 2050; 2051; 2052; 2053; 2054;
       2055; 2056; 2057; 2058; 2059; 2060] /\
    pd.columns df =
      ["World"; "OECD90"; "Eastern Europe"; "Asia (Sans Japan)";
       "Middle East and Africa"; "Latin America"; "China"; "India";
       "EU"; "USA"] /\
    yearly_table df.
Proof.
  split; [reflexivity |].
  apply (C4_yearly_table_shape META MEAN (VInt 4)). reflexivity.
Defined.

(** C5: the input at which the code leaves the claim.  With grid source
    META, grid range MEAN and dataset version 99 the method returns no
    table and raises a [ValueError], but where every other [raise] of the
    module shows the value that was refused, this one shows the grid
    source, which is valid: the message is "Invalid
    self.ac.emissions_grid_source GRID_SOURCE.META" and 99 does not occur
    in it. *)
Theorem C5_message_omits_version :
  conv_ref_grid_CO2eq_per_KWh (cfg META MEAN (VInt 99))
    = Raise (ValueError "Invalid self.ac.emissions_grid_source GRID_SOURCE.META") /\
  ~ (exists msg,
       conv_ref_grid_CO2eq_per_KWh (cfg META MEAN (VInt 99)) = Raise (ValueError msg) /\
       mentions (Py.str (VInt 99)) msg = true).
Proof.
  split; [reflexivity |].
  intros (msg & Hraise & Hmentions).
  vm_compute in Hraise. injection Hraise as <-.
  vm_compute in Hmentions. discriminate Hmentions.
Qed.

(** C6: [CO2Equiv] gives the multipliers (CH4, N2O) = (34, 298) for
    AR5_WITH_FEEDBACK, (25, 298) for AR4 and (21, 310) for SAR; constructed
    without a standard it is the converter of AR5_WITH_FEEDBACK. *)
Theorem C6_multipliers :
  multipliers (CO2Equiv__init__ (Some (VCO2EQ_SOURCE AR5_WITH_FEEDBACK))) = Ok (34, 298) /\
  multipliers (CO2Equiv__init__ (Some (VCO2EQ_SOURCE AR4))) = Ok (25, 298) /\
  multipliers (CO2Equiv__init__ (Some (VCO2EQ_SOURCE SAR))) = Ok (21, 310) /\
  CO2Equiv__init__ None = CO2Equiv__init__ (Some (VCO2EQ_SOURCE AR5_WITH_FEEDBACK)) /\
  multipliers (CO2Equiv__init__ None) = Ok (34, 298).
Proof.
  repeat split.
Qed.

(** C7: [string_to_emissions_grid_range] returns [GRID_RANGE.MEAN] for
    "median" as it does for "mean", and it does so for every case variant
    of the two words. *)
Theorem C7_median_is_mean (s t : string) :
  case_variant s "median" = true ->
  case_variant t "mean" = true ->
  string_to_emissions_grid_range (VStr "median") = Ok MEAN /\
  string_to_emissions_grid_range (VStr "mean") = Ok MEAN /\
  string_to_emissions_grid_range (VStr s) = Ok MEAN /\
  string_to_emissions_grid_range (VStr t) = Ok MEAN /\
  string_to_emissions_grid_range (VStr s) = string_to_emissions_grid_range (VStr t).
Proof.
  intros Hs Ht.
  assert (Es : string_to_emissions_grid_range (VStr s) = Ok MEAN).
  { unfold string_to_emissions_grid_range. cbn [Py.str].
    now rewrite (case_variant_lower _ _ Hs). }
  assert (Et : string_to_emissions_grid_range (VStr t) = Ok MEAN).
  { unfold string_to_emissions_grid_range. cbn [Py.str].
    now rewrite (case_variant_lower _ _ Ht). }
  repeat split; try assumption; try reflexivity. now rewrite Es, Et.
Qed.

Lemma C7_median_is_mean_witness :
  case_variant "MeDiAn" "median" = true /\
  case_variant "MEAN" "mean" = true /\
  string_to_emissions_grid_range (VStr "MeDiAn")
    = string_to_emissions_grid_range (VStr "MEAN").
Proof.
  split; [reflexivity |]. split; [reflexivity |].
  apply (C7_median_is_mean "MeDiAn" "MEAN"); reflexivity.
Defined.

(** C8: each of the three normalizers accepts a text exactly when its
    lower-cased form is one of the spellings of its synonym table, that is,
    when the text reads as one of the spellings with case ignored; it
    returns the member the table gives for that spelling, and otherwise
    raises a [ValueError] whose message ends with the text as it was
    given. *)
Theorem C8_normalizers_follow_tables :
  follows_table string_to_conversion_source
    conversion_source_synonyms "invalid conversion name=" /\
  follows_table string_to_emissions_grid_source
    grid_source_synonyms "invalid grid source name=" /\
  follows_table string_to_emissions_grid_range
    grid_range_synonyms "invalid grid range name=".
Proof.
  assert (Hlower :
    (forall s,
       (forall e, string_to_conversion_source (VStr s) = Ok e
                  <-> (Py.lower s, e) ∈ conversion_source_synonyms) /\
       ((exists e, string_to_conversion_source (VStr s) = Ok e)
        <-> Py.lower s ∈ conversion_source_synonyms.*1) /\
       (Py.lower s ∉ conversion_source_synonyms.*1
        <-> string_to_conversion_source (VStr s)
            = Raise (ValueError ("invalid conversion name=" +:+ s)))) /\
    (forall s,
       (forall e, string_to_emissions_grid_source (VStr s) = Ok e
                  <-> (Py.lower s, e) ∈ grid_source_synonyms) /\
       ((exists e, string_to_emissions_grid_source (VStr s) = Ok e)
        <-> Py.lower s ∈ grid_source_synonyms.*1) /\
       (Py.lower s ∉ grid_source_synonyms.*1
        <-> string_to_emissions_grid_source (VStr s)
            = Raise (ValueError ("invalid grid source name=" +:+ s)))) /\
    (forall s,
       (forall e, string_to_emissions_grid_range (VStr s) = Ok e
                  <-> (Py.lower s, e) ∈ grid_range_synonyms) /\
       ((exists e, string_to_emissions_grid_range (VStr s) = Ok e)
        <-> Py.lower s ∈ grid_range_synonyms.*1) /\
       (Py.lower s ∉ grid_range_synonyms.*1
        <-> string_to_emissions_grid_range (VStr s)
            = Raise (ValueError ("invalid grid range name=" +:+ s))))).
  { split; [| split]; intros s;
      unfold string_to_conversion_source, string_to_emissions_grid_source,
        string_to_emissions_grid_range, conversion_source_synonyms,
        grid_source_synonyms, grid_range_synonyms;
      cbn [Py.str]; generalize (Py.lower s); intros l;
      synonym_cases; synonym_facts. }
  destruct Hlower as (H1 & H2 & H3).
  split; [| split]; intros s;
    [destruct (H1 s) as (Hmember & Hsome & Hraise)
    | destruct (H2 s) as (Hmember & Hsome & Hraise)
    | destruct (H3 s) as (Hmember & Hsome & Hraise)];
    (split; [exact Hmember |]; split; [exact Hsome |]; split; [exact Hraise |];
     split;
     [ intros e; rewrite (Hmember e); now apply reads_as_table
     | rewrite <- Hraise; symmetry; now apply reads_as_names ]).
Qed.


(** C10: a resolver constructed without a dataset version has version 1,
    so with grid source META its table takes "World" from the column of the
    META version 1 reference table that the grid range selects. *)
Theorem C10_default_version_is_1 :
  (forall a, grid_emissions_version (ElectricityGenOnGrid__init__ a None) = VInt 1) /\
  (forall a, conv_ref_grid_CO2eq_per_KWh (ElectricityGenOnGrid__init__ a None)
             = conv_ref_grid_CO2eq_per_KWh (ElectricityGenOnGrid__init__ a (Some (VInt 1)))) /\
  (forall r : GRID_RANGE,
     exists df,
       conv_ref_grid_CO2eq_per_KWh
         (ElectricityGenOnGrid__init__
            {| emissions_grid_source := VGRID_SOURCE META;
               emissions_grid_range := VGRID_RANGE r |} None) = Ok df /\
       pd.loc_values df "World" = pd.loc_values _world_meta_1 (range_column r)).
Proof.
  split; [reflexivity |]. split; [reflexivity |].
  intros r. destruct r; eexists; (split; [reflexivity | vm_compute; reflexivity]).
Qed.

(** * Further properties of [CO2Equiv] *)

(** X1: a conversion source that is false as a truth value (None, False,
    0, the empty text) is replaced by AR5_WITH_FEEDBACK: the converter is
    the one constructed without an argument. *)
Theorem CO2Equiv_falsy_is_default (v : value) :
  Py.truthy v = false ->
  CO2Equiv__init__ (Some v) = CO2Equiv__init__ None /\
  CO2Equiv__init__ (Some v)
    = Ok {| conversion_source := VCO2EQ_SOURCE AR5_WITH_FEEDBACK;
            CH4multiplier := 34; N2Omultiplier := 298 |}.
Proof.
  intros Hv. unfold CO2Equiv__init__. cbn [Py.arg]. rewrite Hv.
  split; reflexivity.
Qed.

Lemma CO2Equiv_falsy_is_default_witness :
  Py.truthy (VStr "") = false /\
  CO2Equiv__init__ (Some (VStr "")) = CO2Equiv__init__ None.
Proof.
  split; [reflexivity |].
  apply (CO2Equiv_falsy_is_default (VStr "")). reflexivity.
Defined.

(** X2: a conversion source that is true as a truth value and is no member
    of CO2EQ_SOURCE (text that was not normalized, a member of another
    enumeration, a number) is rejected with a [ValueError] that shows its
    [str]. *)
Theorem CO2Equiv_rejects_non_member (v : value) :
  Py.truthy v = true ->
  is_CO2EQ_SOURCE v = false ->
  CO2Equiv__init__ (Some v)
    = Raise (ValueError ("invalid conversion_source=" +:+ Py.str v)).
Proof.
  intros Ht Hm. unfold CO2Equiv__init__. cbn [Py.arg]. rewrite Ht.
  destruct v as [| b | z | s | c | g | r]; try discriminate Hm; reflexivity.
Qed.

Lemma CO2Equiv_rejects_non_member_witness :
  Py.truthy (VStr "AR4") = true /\
  is_CO2EQ_SOURCE (VStr "AR4") = false /\
  CO2Equiv__init__ (Some (VStr "AR4"))
    = Raise (ValueError "invalid conversion_source=AR4").
Proof.
  split; [reflexivity |]. split; [reflexivity |].
  apply (CO2Equiv_rejects_non_member (VStr "AR4")); reflexivity.
Defined.

(** X3: a converter that was constructed stores a member of CO2EQ_SOURCE,
    and constructing a converter from the stored member gives the same
    object: the multipliers always belong to the stored standard. *)
Theorem CO2Equiv_stored_source_round_trip (given : option value) (o : CO2Equiv) :
  CO2Equiv__init__ given = Ok o ->
  is_CO2EQ_SOURCE (conversion_source o) = true /\
  CO2Equiv__init__ (Some (conversion_source o)) = Ok o.
Proof.
  unfold CO2Equiv__init__. destruct given as [v |]; cbn [Py.arg].
  - destruct (Py.truthy v) eqn:Ht.
    + destruct v as [| b | z | s | [] | g | r]; try discriminate;
        intros [= <-]; split; reflexivity.
    + intros [= <-]. split; reflexivity.
  - intros [= <-]. split; reflexivity.
Qed.

Lemma CO2Equiv_stored_source_round_trip_witness :
  CO2Equiv__init__ (Some (VInt 0))
    = Ok {| conversion_source := VCO2EQ_SOURCE AR5_WITH_FEEDBACK;
            CH4multiplier := 34; N2Omultiplier := 298 |} /\
  CO2Equiv__init__ (Some (VCO2EQ_SOURCE AR5_WITH_FEEDBACK))
    = Ok {| conversion_source := VCO2EQ_SOURCE AR5_WITH_FEEDBACK;
            CH4multiplier := 34; N2Omultiplier := 298 |}.
Proof.
  split; [reflexivity |].
  apply (CO2Equiv_stored_source_round_trip (Some (VInt 0))
           {| conversion_source := VCO2EQ_SOURCE AR5_WITH_FEEDBACK;
              CH4multiplier := 34; N2Omultiplier := 298 |}).
  reflexivity.
Defined.

(** * Further properties of the grid table methods *)

Lemma Py_eq_GRID_SOURCE v g :
  Py.eq v (VGRID_SOURCE g) = true -> v = VGRID_SOURCE g.
Proof.
  destruct v as [| b | z | s | c | [] | r], g; simpl; try discriminate; reflexivity.
Qed.

Lemma meta_invalid_version_raises (range version : value) :
  valid_version version = false ->
  conv_ref_grid_CO2eq_per_KWh (resolver (VGRID_SOURCE META) range version)
  = Raise (ValueError "Invalid self.ac.emissions_grid_source GRID_SOURCE.META").
Proof.
  intros Hv. destruct (invalid_version_neq _ Hv) as (H1 & H2 & H3 & H4).
  unfold conv_ref_grid_CO2eq_per_KWh, lru_cache, data_func, resolver.
  cbn [ac grid_emissions_version emissions_grid_source emissions_grid_range].
  rewrite H1, H2, H3, H4. reflexivity.
Qed.

Lemma foreign_source_raises (source range version : value) :
  is_GRID_SOURCE source = false ->
  conv_ref_grid_CO2eq_per_KWh (resolver source range version)
    = Raise (ValueError ("Invalid self.ac.emissions_grid_source " +:+ Py.str source)).
Proof.
  intros Hm.
  destruct source as [| b | z | s | c | g | r]; try discriminate Hm; reflexivity.
Qed.

Lemma foreign_range_raises (g : GRID_SOURCE) (range version : value) :
  g = IPCC \/ valid_version version = true ->
  is_GRID_RANGE range = false ->
  conv_ref_grid_CO2eq_per_KWh (resolver (VGRID_SOURCE g) range version)
    = Raise (ValueError ("Invalid ac.emissions_grid_range " +:+ Py.str range)).
Proof.
  intros Hsel Hm.
  destruct g.
  - destruct Hsel as [Hg | Hv]; [discriminate Hg |].
    apply valid_version_cases in Hv.
    rewrite !elem_of_cons, elem_of_nil in Hv.
    destruct Hv as [-> | [-> | [-> | [-> | [-> | []]]]]];
      destruct range as [| b | z | s | c | g | r]; try discriminate Hm; reflexivity.
  - destruct range as [| b | z | s | c | g | r]; try discriminate Hm; reflexivity.
Qed.

(** X4: a grid source that is no member of GRID_SOURCE (None, text that
    was not normalized, a member of another enumeration) is rejected with
    the grid source error and its [str], whatever the grid range and the
    dataset version are: the source is looked at first. *)
Theorem conv_rejects_foreign_source (source range version : value) :
  is_GRID_SOURCE source = false ->
  conv_ref_grid_CO2eq_per_KWh (resolver source range version)
    = Raise (ValueError ("Invalid self.ac.emissions_grid_source " +:+ Py.str source)).
Proof.
  intros Hm.
  destruct source as [| b | z | s | c | g | r]; try discriminate Hm; reflexivity.
Qed.

Lemma conv_rejects_foreign_source_witness :
  is_GRID_SOURCE (VStr "IPCC Only") = false /\
  conv_ref_grid_CO2eq_per_KWh (resolver (VStr "IPCC Only") VNone (VInt 1))
    = Raise (ValueError "Invalid self.ac.emissions_grid_source IPCC Only").
Proof.
  split; [reflexivity |].
  apply (conv_rejects_foreign_source (VStr "IPCC Only") VNone (VInt 1)). reflexivity.
Defined.

(** X5: when the grid source and the dataset version select a reference
    table (IPCC, or META with a valid version), a grid range that is no
    member of GRID_RANGE is rejected with the grid range error and its
    [str]. *)
Theorem conv_rejects_foreign_range (g : GRID_SOURCE) (range version : value) :
  g = IPCC \/ valid_version version = true ->
  is_GRID_RANGE range = false ->
  conv_ref_grid_CO2eq_per_KWh (resolver (VGRID_SOURCE g) range version)
    = Raise (ValueError ("Invalid ac.emissions_grid_range " +:+ Py.str range)).
Proof.
  intros Hsel Hm.
  destruct g.
  - destruct Hsel as [Hg | Hv]; [discriminate Hg |].
    apply valid_version_cases in Hv.
    rewrite !elem_of_cons, elem_of_nil in Hv.
    destruct Hv as [-> | [-> | [-> | [-> | [-> | []]]]]];
      destruct range as [| b | z | s | c | g | r]; try discriminate Hm; reflexivity.
  - destruct range as [| b | z | s | c | g | r]; try discriminate Hm; reflexivity.
Qed.

Lemma conv_rejects_foreign_range_witness :
  (META = IPCC \/ valid_version (VInt 2) = true) /\
  is_GRID_RANGE (VStr "mean") = false /\
  conv_ref_grid_CO2eq_per_KWh (resolver (VGRID_SOURCE META) (VStr "mean") (VInt 2))
    = Raise (ValueError "Invalid ac.emissions_grid_range mean").
Proof.
  split; [right; reflexivity |]. split; [reflexivity |].
  apply (conv_rejects_foreign_range META (VStr "mean") (VInt 2));
    [right; reflexivity | reflexivity].
Defined.

(** A resolver that returns a table has a member source, a member range
    and, for META, a valid version. *)
Lemma conv_Ok_members (self : ElectricityGenOnGrid) (df : pd.DataFrame) :
  conv_ref_grid_CO2eq_per_KWh self = Ok df ->
  exists g r,
    emissions_grid_source (ac self) = VGRID_SOURCE g /\
    emissions_grid_range (ac self) = VGRID_RANGE r /\
    (g = IPCC \/ valid_version (grid_emissions_version self) = true).
Proof.
  destruct self as [[source range] version]. cbn [ac emissions_grid_source
    emissions_grid_range grid_emissions_version].
  change {| ac := {| emissions_grid_source := source; emissions_grid_range := range |};
            grid_emissions_version := version |}
    with (resolver source range version).
  intros Hdf.
  destruct (is_GRID_SOURCE source) eqn:Hs.
  2:{ rewrite (foreign_source_raises _ _ _ Hs) in Hdf. discriminate Hdf. }
  destruct source as [| | | | | g |]; try discriminate Hs.
  assert (Hsel : g = IPCC \/ valid_version version = true).
  { destruct g; [| now left].
    destruct (valid_version version) eqn:Hv; [now right |].
    rewrite (meta_invalid_version_raises _ _ Hv) in Hdf. discriminate Hdf. }
  destruct (is_GRID_RANGE range) eqn:Hr.
  2:{ rewrite (foreign_range_raises _ _ _ Hsel Hr) in Hdf. discriminate Hdf. }
  destruct range as [| | | | | | r]; try discriminate Hr.
  exists g, r. repeat split. exact Hsel.
Qed.

(** X6: [conv_ref_grid_CO2eq_per_KWh] returns a table exactly when the grid
    source and the grid range are members of their enumerations and, for
    META, the dataset version is one of 1, 2, 3, 4; in every other case it
    raises. *)
Theorem conv_returns_table_iff (self : ElectricityGenOnGrid) :
  (exists df, conv_ref_grid_CO2eq_per_KWh self = Ok df) <->
  (exists g r,
      emissions_grid_source (ac self) = VGRID_SOURCE g /\
      emissions_grid_range (ac self) = VGRID_RANGE r /\
      (g = IPCC \/ valid_version (grid_emissions_version self) = true)).
Proof.
  split.
  - intros (df & Hdf). exact (conv_Ok_members self df Hdf).
  - destruct self as [[source range] version].
    cbn [ac emissions_grid_source emissions_grid_range grid_emissions_version].
    intros (g & r & -> & -> & [-> | Hv]).
    + destruct r; eexists; reflexivity.
    + apply (conv_valid_Ok g r version Hv).
Qed.

(** X7: with grid source IPCC the dataset version is never read: for every
    grid range a table is returned whatever the version is (also one that
    is not 1, 2, 3 or 4), and two resolvers that differ in the version only
    give the same result. *)
Theorem conv_ipcc_ignores_version :
  (forall range version version',
     conv_ref_grid_CO2eq_per_KWh (resolver (VGRID_SOURCE IPCC) range version)
     = conv_ref_grid_CO2eq_per_KWh (resolver (VGRID_SOURCE IPCC) range version')) /\
  (forall r : GRID_RANGE,
     exists df, forall version, conv_ref_grid_CO2eq_per_KWh (cfg IPCC r version) = Ok df).
Proof.
  split.
  - intros range version version'. reflexivity.
  - intros r. destruct r; eexists; intros version; reflexivity.
Qed.

Ltac each_year H :=
  apply list_elem_of_In in H; vm_compute in H;
  repeat (destruct H as [<- | H]); [.. | destruct H].

Ltac follows_by_rows :=
  eexists; split; [reflexivity |];
  split; [vm_compute; reflexivity |];
  apply Forall_forall; intros year Hyear;
  each_year Hyear; (split; [vm_compute; reflexivity | vm_compute; discriminate]).

(** X8: "World" is copied from the reference table row by row, and the rows
    of every reference table are the years of the result in the same order:
    for each year from 2015 to 2060 the "World" cell is the entry that the
    selected table (IPCC, or META version 1 to 4) has for that year in the
    column of the grid range. *)
Theorem conv_world_follows_reference (r : GRID_RANGE) :
  (forall version,
     exists df, conv_ref_grid_CO2eq_per_KWh (cfg IPCC r version) = Ok df /\
                world_follows df _world_ipcc (range_column r)) /\
  (exists df, conv_ref_grid_CO2eq_per_KWh (cfg META r (VInt 1)) = Ok df /\
              world_follows df _world_meta_1 (range_column r)) /\
  (exists df, conv_ref_grid_CO2eq_per_KWh (cfg META r (VInt 2)) = Ok df /\
              world_follows df _world_meta_2 (range_column r)) /\
  (exists df, conv_ref_grid_CO2eq_per_KWh (cfg META r (VInt 3)) = Ok df /\
              world_follows df _world_meta_3 (range_column r)) /\
  (exists df, conv_ref_grid_CO2eq_per_KWh (cfg META r (VInt 4)) = Ok df /\
              world_follows df _world_meta_4 (range_column r)).
Proof.
  destruct r; repeat (split; [try intros version; follows_by_rows |]);
    follows_by_rows.
Qed.

(** Every resolver that returns a table returns the table of one of the
    resolvers for a member source, a member range and a version 1 to 4. *)
Lemma conv_Ok_cases self df :
  conv_ref_grid_CO2eq_per_KWh self = Ok df ->
  exists g r k,
    k ∈ [1; 2; 3; 4] /\ conv_ref_grid_CO2eq_per_KWh (cfg g r (VInt k)) = Ok df.
Proof.
  intros Hdf.
  destruct (conv_Ok_members self df Hdf) as (g & r & Hg & Hr & Hsel).
  destruct self as [[source range] version]. simpl in Hg, Hr, Hsel. subst source range.
  destruct Hsel as [-> | Hv].
  - exists IPCC, r, 1. split; [region_name |]. exact Hdf.
  - apply valid_version_cases in Hv. rewrite !elem_of_cons, elem_of_nil in Hv.
    destruct Hv as [-> | [-> | [-> | [-> | [-> | []]]]]].
    + exists g, r, 1. split; [region_name | exact Hdf].
    + exists g, r, 2. split; [region_name | exact Hdf].
    + exists g, r, 3. split; [region_name | exact Hdf].
    + exists g, r, 4. split; [region_name | exact Hdf].
    + exists g, r, 1. split; [region_name |]. destruct g; exact Hdf.
Qed.

(** X9: for every selection of a reference table the three grid ranges are
    ordered: in each year from 2015 to 2060 "World" for LOW is below
    "World" for MEAN, which is below "World" for HIGH. *)
Theorem conv_world_low_mean_high (g : GRID_SOURCE) (version : value) :
  g = IPCC \/ valid_version version = true ->
  exists low mid high,
    conv_ref_grid_CO2eq_per_KWh (cfg g LOW version) = Ok low /\
    conv_ref_grid_CO2eq_per_KWh (cfg g MEAN version) = Ok mid /\
    conv_ref_grid_CO2eq_per_KWh (cfg g HIGH version) = Ok high /\
    world_ordered low mid high = true.
Proof.
  intros Hsel.
  assert (Hcases : g = IPCC \/
            version ∈ [VInt 1; VInt 2; VInt 3; VInt 4; VBool true]).
  { destruct Hsel as [-> | Hv]; [now left | right; now apply valid_version_cases]. }
  destruct Hcases as [-> | Hv].
  - do 3 eexists. repeat (split; [reflexivity |]). vm_compute. reflexivity.
  - rewrite !elem_of_cons, elem_of_nil in Hv.
    destruct Hv as [-> | [-> | [-> | [-> | [-> | []]]]]]; destruct g;
      do 3 eexists; repeat (split; [reflexivity |]); vm_compute; reflexivity.
Qed.

Lemma conv_world_low_mean_high_witness :
  (META = IPCC \/ valid_version (VInt 3) = true) /\
  exists low mid high,
    conv_ref_grid_CO2eq_per_KWh (cfg META LOW (VInt 3)) = Ok low /\
    conv_ref_grid_CO2eq_per_KWh (cfg META MEAN (VInt 3)) = Ok mid /\
    conv_ref_grid_CO2eq_per_KWh (cfg META HIGH (VInt 3)) = Ok high /\
    world_ordered low mid high = true.
Proof.
  split; [right; reflexivity |].
  apply (conv_world_low_mean_high META (VInt 3)). right. reflexivity.
Defined.

(** X10: a table that one of the two methods returns has a number in every
    cell: none of the NaN cells of the frame the method starts from is
    left. *)
Theorem returned_tables_are_filled (self : ElectricityGenOnGrid) (df : pd.DataFrame) :
  conv_ref_grid_CO2eq_per_KWh self = Ok df \/ conv_ref_grid_CO2_per_KWh self = Ok df ->
  filled blank_table = false /\ filled df = true.
Proof.
  intros Hdf. split; [vm_compute; reflexivity |].
  destruct Hdf as [Hdf | Hdf].
  - destruct (conv_Ok_cases _ _ Hdf) as (g & r & k & Hk & Hcfg).
    rewrite !elem_of_cons, elem_of_nil in Hk.
    destruct Hk as [-> | [-> | [-> | [-> | []]]]]; destruct g, r;
      vm_compute in Hcfg; injection Hcfg as <-; vm_compute; reflexivity.
  - vm_compute in Hdf. injection Hdf as <-. vm_compute. reflexivity.
Qed.

Lemma returned_tables_are_filled_witness :
  filled (with_direct_factors blank_table) = true.
Proof.
  apply (returned_tables_are_filled (cfg META MEAN (VInt 1))
           (with_direct_factors blank_table)).
  right. reflexivity.
Defined.

Ltac same_or_apart H :=
  first
    [ solve [repeat split; first [reflexivity | intros Hmeta; discriminate Hmeta]]
    | exfalso;
      match type of H with
      | ?a = ?b =>
          assert (Hsame : same_world_2015 a b = true)
            by (rewrite <- H; vm_compute; reflexivity);
          vm_compute in Hsame; discriminate Hsame
      end ].

(** X11: resolvers that select different reference tables or different grid
    ranges never return the same table: equal results come from the same
    grid source and grid range and, for META, from equal versions. *)
Theorem conv_tables_apart (g g' : GRID_SOURCE) (r r' : GRID_RANGE) (v v' : value) :
  valid_version v = true ->
  valid_version v' = true ->
  conv_ref_grid_CO2eq_per_KWh (cfg g r v) = conv_ref_grid_CO2eq_per_KWh (cfg g' r' v') ->
  g = g' /\ r = r' /\ (g = META -> Py.eq v v' = true).
Proof.
  intros Hv Hv' H.
  apply valid_version_cases in Hv, Hv'.
  rewrite !elem_of_cons, elem_of_nil in Hv, Hv'.
  destruct Hv as [-> | [-> | [-> | [-> | [-> | []]]]]];
    destruct Hv' as [-> | [-> | [-> | [-> | [-> | []]]]]];
    destruct g, g', r, r'; same_or_apart H.
Qed.

Lemma conv_tables_apart_witness :
  valid_version (VBool true) = true /\
  valid_version (VInt 1) = true /\
  conv_ref_grid_CO2eq_per_KWh (cfg META LOW (VBool true))
    = conv_ref_grid_CO2eq_per_KWh (cfg META LOW (VInt 1)) /\
  (META = META -> Py.eq (VBool true) (VInt 1) = true).
Proof.
  split; [reflexivity |]. split; [reflexivity |]. split; [reflexivity |].
  apply (conv_tables_apart META META LOW LOW (VBool true) (VInt 1)); reflexivity.
Defined.

(** X16: the two methods agree with their descriptions (direct emission
    factors against direct and indirect ones): in every year and for every
    region other than "World" the direct factor of
    [conv_ref_grid_CO2_per_KWh] is below the factor of
    [conv_ref_grid_CO2eq_per_KWh], whatever the configuration.  "World" is
    left out for a reason: with IPCC and MEAN its value for 2015 is below
    the direct "World" factor. *)
Theorem direct_factors_below_equivalent
  (self self' : ElectricityGenOnGrid) (equivalent direct : pd.DataFrame) :
  conv_ref_grid_CO2eq_per_KWh self = Ok equivalent ->
  conv_ref_grid_CO2_per_KWh self' = Ok direct ->
  regions_below direct equivalent = true /\
  (forall ipcc_mean,
     conv_ref_grid_CO2eq_per_KWh (cfg IPCC MEAN (VInt 1)) = Ok ipcc_mean ->
     cell_ltb (pd.loc ipcc_mean 2015 "World") (pd.loc direct 2015 "World") = true).
Proof.
  intros Heq Hdirect.
  vm_compute in Hdirect. injection Hdirect as <-.
  split.
  - destruct (conv_Ok_cases _ _ Heq) as (g & r & k & Hk & Hcfg).
    rewrite !elem_of_cons, elem_of_nil in Hk.
    destruct Hk as [-> | [-> | [-> | [-> | []]]]]; destruct g, r;
      vm_compute in Hcfg; injection Hcfg as <-; vm_compute; reflexivity.
  - intros ipcc_mean Hipcc. vm_compute in Hipcc. injection Hipcc as <-.
    vm_compute. reflexivity.
Qed.

Lemma direct_factors_below_equivalent_witness :
  exists equivalent direct,
    conv_ref_grid_CO2eq_per_KWh (cfg META HIGH (VInt 2)) = Ok equivalent /\
    conv_ref_grid_CO2_per_KWh (cfg META HIGH (VInt 2)) = Ok direct /\
    regions_below direct equivalent = true.
Proof.
  do 2 eexists. split; [vm_compute; reflexivity |]. split; [vm_compute; reflexivity |].
  apply (direct_factors_below_equivalent
           (cfg META HIGH (VInt 2)) (cfg META HIGH (VInt 2))); vm_compute; reflexivity.
Defined.

(** * Further properties of the normalizers *)

Ltac reject_non_text v :=
  destruct v as [| [] | [| p | p] | s | [] | [] | []];
  try discriminate; try reflexivity;
  cbn [Py.str Z.to_int NilZero.string_of_int NilZero.string_of_uint];
  destruct (Pos.to_uint p); reflexivity.

(** X12: the normalizers accept text only.  A value that is not text (None,
    a boolean, an integer, and also a member of the enumeration itself) is
    rejected with a [ValueError] that shows its [str]; converting twice
    fails. *)
Theorem normalizers_reject_non_text (v : value) :
  is_text v = false ->
  string_to_conversion_source v
    = Raise (ValueError ("invalid conversion name=" +:+ Py.str v)) /\
  string_to_emissions_grid_source v
    = Raise (ValueError ("invalid grid source name=" +:+ Py.str v)) /\
  string_to_emissions_grid_range v
    = Raise (ValueError ("invalid grid range name=" +:+ Py.str v)).
Proof.
  intros Hv. repeat split.
  - unfold string_to_conversion_source. reject_non_text v.
  - unfold string_to_emissions_grid_source. reject_non_text v.
  - unfold string_to_emissions_grid_range. reject_non_text v.
Qed.

Lemma normalizers_reject_non_text_witness :
  is_text (VGRID_RANGE MEAN) = false /\
  string_to_emissions_grid_range (VGRID_RANGE MEAN)
    = Raise (ValueError "invalid grid range name=GRID_RANGE.MEAN").
Proof.
  split; [reflexivity |].
  apply (normalizers_reject_non_text (VGRID_RANGE MEAN)). reflexivity.
Defined.

(** X13: the name of a member is a spelling of it for CO2EQ_SOURCE and for
    GRID_RANGE, so these two normalizers give back the member whose name
    they are handed; the names of GRID_SOURCE, "META" and "IPCC", are not
    among the spellings and are rejected.  Every member of the three
    enumerations is the result for some text. *)
Theorem member_names_round_trip :
  (forall c, string_to_conversion_source (VStr (CO2EQ_SOURCE_name c)) = Ok c) /\
  (forall r, string_to_emissions_grid_range (VStr (GRID_RANGE_name r)) = Ok r) /\
  (forall g, string_to_emissions_grid_source (VStr (GRID_SOURCE_name g))
             = Raise (ValueError ("invalid grid source name=" +:+ GRID_SOURCE_name g))) /\
  (forall g, exists s, string_to_emissions_grid_source (VStr s) = Ok g).
Proof.
  repeat split.
  - intros []; reflexivity.
  - intros []; reflexivity.
  - intros []; reflexivity.
  - intros []; [exists "meta-analysis" | exists "ipcc only"]; reflexivity.
Qed.

Ltac spelling_of l :=
  cbn [Py.str]; generalize l; intros ?;
  synonym_cases; intros H; try discriminate H; simpl; region_name.

Lemma conversion_source_spelling s e :
  string_to_conversion_source (VStr s) = Ok e ->
  Py.lower s ∈ conversion_source_synonyms.*1.
Proof. unfold string_to_conversion_source. spelling_of (Py.lower s). Qed.

Lemma grid_source_spelling s e :
  string_to_emissions_grid_source (VStr s) = Ok e ->
  Py.lower s ∈ grid_source_synonyms.*1.
Proof. unfold string_to_emissions_grid_source. spelling_of (Py.lower s). Qed.

Lemma grid_range_spelling s e :
  string_to_emissions_grid_range (VStr s) = Ok e ->
  Py.lower s ∈ grid_range_synonyms.*1.
Proof. unfold string_to_emissions_grid_range. spelling_of (Py.lower s). Qed.

Ltac by_spelling H :=
  simpl in H; rewrite !elem_of_cons, elem_of_nil in H;
  cbn [Py.str]; rewrite lower_app_blank;
  repeat (destruct H as [H | H]); try (rewrite H; reflexivity); destruct H.

(** X14: the normalizers do not trim: a text that is accepted is rejected
    once a blank is put before it or after it. *)
Theorem normalizers_do_not_trim (s : string) :
  (forall e, string_to_conversion_source (VStr s) = Ok e ->
     string_to_conversion_source (VStr (" " +:+ s))
       = Raise (ValueError ("invalid conversion name=" +:+ (" " +:+ s))) /\
     string_to_conversion_source (VStr (s +:+ " "))
       = Raise (ValueError ("invalid conversion name=" +:+ (s +:+ " ")))) /\
  (forall e, string_to_emissions_grid_source (VStr s) = Ok e ->
     string_to_emissions_grid_source (VStr (" " +:+ s))
       = Raise (ValueError ("invalid grid source name=" +:+ (" " +:+ s))) /\
     string_to_emissions_grid_source (VStr (s +:+ " "))
       = Raise (ValueError ("invalid grid source name=" +:+ (s +:+ " ")))) /\
  (forall e, string_to_emissions_grid_range (VStr s) = Ok e ->
     string_to_emissions_grid_range (VStr (" " +:+ s))
       = Raise (ValueError ("invalid grid range name=" +:+ (" " +:+ s))) /\
     string_to_emissions_grid_range (VStr (s +:+ " "))
       = Raise (ValueError ("invalid grid range name=" +:+ (s +:+ " ")))).
Proof.
  split; [| split]; intros e H.
  - apply conversion_source_spelling in H.
    unfold string_to_conversion_source. split; [reflexivity | by_spelling H].
  - apply grid_source_spelling in H.
    unfold string_to_emissions_grid_source. split; [reflexivity | by_spelling H].
  - apply grid_range_spelling in H.
    unfold string_to_emissions_grid_range. split; [reflexivity | by_spelling H].
Qed.

Lemma normalizers_do_not_trim_witness :
  string_to_emissions_grid_range (VStr "High") = Ok HIGH /\
  string_to_emissions_grid_range (VStr "High ")
    = Raise (ValueError "invalid grid range name=High ").
Proof.
  split; [reflexivity |].
  apply (normalizers_do_not_trim "High" : _ /\ _ /\ _) with (e := HIGH). reflexivity.
Defined.

(** X15: the normalizers do not look at the case of letters: two texts
    that are the same up to case are accepted together, with the same
    member, or rejected together. *)
Theorem normalizers_ignore_case (s t : string) :
  case_variant s t = true ->
  (forall e, string_to_conversion_source (VStr s) = Ok e
             <-> string_to_conversion_source (VStr t) = Ok e) /\
  (forall e, string_to_emissions_grid_source (VStr s) = Ok e
             <-> string_to_emissions_grid_source (VStr t) = Ok e) /\
  (forall e, string_to_emissions_grid_range (VStr s) = Ok e
             <-> string_to_emissions_grid_range (VStr t) = Ok e).
Proof.
  intros Hst. apply case_variant_lower in Hst.
  unfold string_to_conversion_source, string_to_emissions_grid_source,
    string_to_emissions_grid_range.
  cbn [Py.str]. rewrite Hst. generalize (Py.lower t). intros l.
  split; [| split]; intros e; synonym_cases; split; intros H;
    first [exact H | discriminate H].
Qed.

Lemma normalizers_ignore_case_witness :
  case_variant "IPCC Only" "ipcc only" = true /\
  (string_to_emissions_grid_source (VStr "IPCC Only") = Ok IPCC
   <-> string_to_emissions_grid_source (VStr "ipcc only") = Ok IPCC).
Proof.
  split; [reflexivity |].
  apply (normalizers_ignore_case "IPCC Only" "ipcc only"). reflexivity.
Defined.
